(** * School enrolment and fee domain model: embedding and verified properties

    Shallow embedding of [school/models.py] (the OLYV school template):
    class levels, academic terms, per-term fee schedules and learners,
    together with the parts of the Python runtime and of the Django ORM
    that these methods rely on. *)

From Stdlib Require Import ZArith List String Ascii Bool Lia.
From Stdlib Require Import DecimalString DecimalNat DecimalZ.
Import ListNotations.

Open Scope string_scope.
Open Scope Z_scope.

(** ** Exceptions and fallible computations *)

(** The exceptions that the modelled methods can raise.  A validation error
    carries the dictionary key (the offending field) and its message. *)
Inductive exn : Type :=
| ValidationError (field message : string)
| AttributeError
| TypeError
| ValueError
| IntegrityError
| RelatedObjectDoesNotExist
| DoesNotExist (model : string)
| MultipleObjectsReturned (model : string).

Inductive result (A : Type) : Type :=
| Ok (a : A)
| Raise (e : exn).
Arguments Ok {A} a.
Arguments Raise {A} e.

Definition is_ok {A : Type} (r : result A) : bool :=
  match r with Ok _ => true | Raise _ => false end.

(** A method that may mutate its receiver and a table and may raise: the
    state survives an exception, as the in-place mutation of a Python
    object does. *)
Definition M (S A : Type) : Type := S -> result A * S.

Definition ret {S A : Type} (a : A) : M S A := fun s => (Ok a, s).

Definition raise {S A : Type} (e : exn) : M S A := fun s => (Raise e, s).

Definition bind {S A B : Type} (m : M S A) (k : A -> M S B) : M S B :=
  fun s =>
    match m s with
    | (Ok a, s') => k a s'
    | (Raise e, s') => (Raise e, s')
    end.

Definition lift {S A : Type} (r : result A) : M S A := fun s => (r, s).

Definition get_state {S : Type} : M S S := fun s => (Ok s, s).

Definition put_state {S : Type} (s : S) : M S unit := fun _ => (Ok tt, s).

Declare Scope py_scope.
Delimit Scope py_scope with py.
Notation "x <- m ;; k" := (bind m (fun x => k))
  (at level 61, m at next level, right associativity) : py_scope.
Notation "m ;;; k" := (bind m (fun _ => k))
  (at level 61, right associativity) : py_scope.

(** Bind of plain results, for the methods that mutate nothing. *)
Definition rbind {A B : Type} (r : result A) (k : A -> result B) : result B :=
  match r with
  | Ok a => k a
  | Raise e => Raise e
  end.

(** ** [datetime.date] *)

Module datetime.

Record date : Type := mkdate { year : Z; month : Z; day : Z }.

Definition MINYEAR : Z := 1.
Definition MAXYEAR : Z := 9999.

Definition _is_leap (y : Z) : bool :=
  (y mod 4 =? 0) && (negb (y mod 100 =? 0) || (y mod 400 =? 0)).

Definition _DAYS_IN_MONTH (m : Z) : Z :=
  match m with
  | 1 => 31 | 2 => 28 | 3 => 31 | 4 => 30 | 5 => 31 | 6 => 30
  | 7 => 31 | 8 => 31 | 9 => 30 | 10 => 31 | 11 => 30 | 12 => 31
  | _ => 0
  end.

Definition _DAYS_BEFORE_MONTH (m : Z) : Z :=
  match m with
  | 1 => 0 | 2 => 31 | 3 => 59 | 4 => 90 | 5 => 120 | 6 => 151
  | 7 => 181 | 8 => 212 | 9 => 243 | 10 => 273 | 11 => 304 | 12 => 334
  | _ => 0
  end.

Definition _days_before_year (y : Z) : Z :=
  let y' := y - 1 in
  y' * 365 + y' / 4 - y' / 100 + y' / 400.

Definition _days_in_month (y m : Z) : Z :=
  if (m =? 2) && _is_leap y then 29 else _DAYS_IN_MONTH m.

Definition _days_before_month (y m : Z) : Z :=
  _DAYS_BEFORE_MONTH m + (if (m >? 2) && _is_leap y then 1 else 0).

Definition _ymd2ord (y m d : Z) : Z :=
  _days_before_year y + _days_before_month y m + d.

(** The constructor of [date] refuses anything else, so every date
    object of the program satisfies [valid]. *)
Definition valid (d : date) : bool :=
  (MINYEAR <=? year d) && (year d <=? MAXYEAR)
  && (1 <=? month d) && (month d <=? 12)
  && (1 <=? day d) && (day d <=? _days_in_month (year d) (month d)).

Definition toordinal (d : date) : Z := _ymd2ord (year d) (month d) (day d).

(** Comparison of two dates is the comparison of their
    [(year, month, day)] triples. *)
Definition lt (a b : date) : bool :=
  (year a <? year b)
  || ((year a =? year b)
      && ((month a <? month b)
          || ((month a =? month b) && (day a <? day b)))).

Definition le (a b : date) : bool := negb (lt b a).

Definition gt (a b : date) : bool := lt b a.

(** [(a - b).days] *)
Definition sub_days (a b : date) : Z := toordinal a - toordinal b.

(** [date(year, month, day)]: [ValueError] outside the calendar. *)
Definition new (y m d : Z) : result date :=
  if valid (mkdate y m d) then Ok (mkdate y m d) else Raise ValueError.

End datetime.

(** ** Python strings and lists

    Strings are modelled as sequences of 8-bit characters; the case
    conversion acts on the ASCII letters, which is what [str.upper] does on
    the enumeration keys of this program. *)

Module Py.

(** [str(n)] for an integer. *)
Definition str (n : Z) : string := NilEmpty.string_of_int (Z.to_int n).

(** [s[n:]] *)
Fixpoint slice_from (n : nat) (s : string) : string :=
  match n, s with
  | O, _ => s
  | S _, EmptyString => EmptyString
  | S n', String _ s' => slice_from n' s'
  end.

(** [s[:n]] *)
Fixpoint slice_to (n : nat) (s : string) : string :=
  match n, s with
  | O, _ => EmptyString
  | S _, EmptyString => EmptyString
  | S n', String c s' => String c (slice_to n' s')
  end.

Definition upper_char (c : ascii) : ascii :=
  let n := nat_of_ascii c in
  if (97 <=? n)%nat && (n <=? 122)%nat then ascii_of_nat (n - 32) else c.

(** [s.upper()] *)
Fixpoint upper (s : string) : string :=
  match s with
  | EmptyString => EmptyString
  | String c s' => String (upper_char c) (upper s')
  end.

(** [s.startswith(p)] *)
Definition startswith (s p : string) : bool := String.prefix p s.

Fixpoint zeros (k : nat) : string :=
  match k with
  | O => EmptyString
  | S k' => String "0" (zeros k')
  end.

(** [f"{n:03d}"]: the decimal digits, sign first, filled with zeros up
    to a width of at least three characters. *)
Definition format_03d (n : Z) : string :=
  let sign := if n <? 0 then "-" else "" in
  let digits := str (Z.abs n) in
  (sign ++ zeros (3 - String.length sign - String.length digits) ++ digits)%string.

(** Truth value of a string: the empty string is false. *)
Definition truthy (s : string) : bool :=
  match s with EmptyString => false | String _ _ => true end.

(** [xs.index(x)]: position of the first element equal to [x];
    [ValueError] when there is none. *)
Fixpoint index (x : string) (xs : list string) : result Z :=
  match xs with
  | [] => Raise ValueError
  | y :: ys =>
      if String.eqb y x then Ok 0
      else rbind (index x ys) (fun i => Ok (i + 1))
  end.

(** Comparison of two values that may be [None]: ordering a date
    against [None] is a [TypeError]. *)
Definition date_cmp (op : datetime.date -> datetime.date -> bool)
           (a b : option datetime.date) : result bool :=
  match a, b with
  | Some x, Some y => Ok (op x y)
  | _, _ => Raise TypeError
  end.

End Py.

(** ** The storage engine as the ORM presents it

    A table is the list of its rows, each carrying its primary key.
    [Model.save] updates the row that has the primary key of the object
    and inserts otherwise; a write that would break a uniqueness
    constraint of the model is refused with [IntegrityError] and leaves the
    table as it was.  Only the uniqueness constraints that the models
    declare are represented; the other column constraints play no part in
    the properties below. *)

Section ModelSave.

Context {A : Type}.
Variable get_pk : A -> option nat.
Variable set_pk : option nat -> A -> A.
(** Two rows that may not coexist. *)
Variable conflicts : A -> A -> bool.
(** What the fields compute on insertion ([pre_save] with [add=True]). *)
Variable pre_insert : A -> A.

Definition has_pk (k : nat) (row : A) : bool :=
  match get_pk row with
  | Some k' => Nat.eqb k k'
  | None => false
  end.

Definition fresh_pk (t : list A) : nat :=
  S (fold_right Nat.max O
       (map (fun r => match get_pk r with Some k => k | None => O end) t)).

Definition others (k : nat) (t : list A) : list A :=
  filter (fun r => negb (has_pk k r)) t.

Fixpoint replace_row (k : nat) (obj : A) (t : list A) : list A :=
  match t with
  | [] => []
  | r :: t' =>
      if has_pk k r then obj :: replace_row k obj t'
      else r :: replace_row k obj t'
  end.

Definition insert_row (obj : A) : M (A * list A) unit :=
  fun '(_, t) =>
    let obj' := pre_insert obj in
    let k := match get_pk obj' with Some k => k | None => fresh_pk t end in
    let row := set_pk (Some k) obj' in
    if existsb (conflicts obj') t then (Raise IntegrityError, (obj', t))
    else (Ok tt, (row, (t ++ [row])%list)).

Definition update_row (k : nat) (obj : A) : M (A * list A) unit :=
  fun '(_, t) =>
    if existsb (conflicts obj) (others k t) then (Raise IntegrityError, (obj, t))
    else (Ok tt, (obj, replace_row k obj t)).

(** [super().save()] *)
Definition model_save : M (A * list A) unit :=
  fun '(self, t) =>
    match get_pk self with
    | Some k =>
        if existsb (has_pk k) t then update_row k self (self, t)
        else insert_row self (self, t)
    | None => insert_row self (self, t)
    end.

End ModelSave.

Definition get_self {A T : Type} : M (A * T) A := fun s => (Ok (fst s), s).

Definition set_self {A T : Type} (a : A) : M (A * T) unit :=
  fun s => (Ok tt, (a, snd s)).

Definition get_table {A T : Type} : M (A * T) T := fun s => (Ok (snd s), s).

(** [Model.objects.get(...)] over the rows that satisfy the lookup. *)
Definition objects_get {A : Type} (model : string) (lookup : A -> bool)
           (t : list A) : result A :=
  match filter lookup t with
  | [] => Raise (DoesNotExist model)
  | [row] => Ok row
  | _ :: _ :: _ => Raise (MultipleObjectsReturned model)
  end.

(** Amounts of money are [DecimalField(max_digits=10, decimal_places=2)]
    values: exact decimals with two places, represented by their number of
    hundredths.  Decimal addition is exact on them. *)
Definition Decimal : Type := Z.

(** ** ClassLevel *)

Module ClassLevel.

Record t : Type := mk {
  pk : option nat;
  name : string;
  description : string;
  class_order : option Z;
  age_criteria : option Z;
  admission_fee : Decimal;
  assessment_fee : Decimal
}.

(** Order is important as it marks class progression. *)
Definition MODEL_CHOICES : list (string * string) :=
  [ ("beginner", "Beginner Class");
    ("pp1", "PP1");
    ("pp2", "PP2");
    ("grade1", "Grade 1");
    ("grade2", "Grade 2") ].

Definition set_pk (k : option nat) (self : t) : t :=
  mk k (name self) (description self) (class_order self)
     (age_criteria self) (admission_fee self) (assessment_fee self).

Definition set_class_order (v : Z) (self : t) : t :=
  mk (pk self) (name self) (description self) (Some v)
     (age_criteria self) (admission_fee self) (assessment_fee self).

(** [name] is declared [unique=True]. *)
Definition conflicts (a b : t) : bool := String.eqb (name a) (name b).

Definition save : M (t * list t) unit :=
  (self <- get_self ;;
   let choice_values := map fst MODEL_CHOICES in
   match Py.index (name self) choice_values with
   | Ok i => set_self (set_class_order (i + 1) self)
   | Raise ValueError => set_self (set_class_order 999 self)
   | Raise e => raise e
   end ;;;
   model_save pk set_pk conflicts (fun row => row))%py.

End ClassLevel.

(** ** AcademicTerm *)

Module AcademicTerm.

Record t : Type := mk {
  pk : option nat;
  name : string;
  start_date : option datetime.date;
  end_date : option datetime.date;
  year : Z
}.

Definition TERM_CHOICES : list (string * string) :=
  [ ("term1", "Term 1"); ("term2", "Term 2"); ("term3", "Term 3") ].

Definition set_pk (k : option nat) (self : t) : t :=
  mk k (name self) (start_date self) (end_date self) (year self).

(** [name] is declared [unique=True]. *)
Definition conflicts (a b : t) : bool := String.eqb (name a) (name b).

Definition clean (self : t) : result unit :=
  match start_date self, end_date self with
  | Some s, Some e =>
      if datetime.le e s then
        Raise (ValidationError "end_date"
                 "End date must be after the start date.")
      else
        let duration := datetime.sub_days e s in
        if duration <? 60 then
          Raise (ValidationError "end_date"
                   "Term duration seems too short (less than 60 days). Please verify dates.")
        else if duration >? 120 then
          Raise (ValidationError "end_date"
                   "Term duration seems too long (more than 120 days). Please verify dates.")
        else Ok tt
  | _, _ => Ok tt
  end.

Definition save : M (t * list t) unit :=
  (self <- get_self ;;
   lift (clean self) ;;;
   model_save pk set_pk conflicts (fun row => row))%py.

(** [today] stands for [date.today()]. *)
Definition get_term_status (today : datetime.date) (self : t) : result string :=
  rbind (Py.date_cmp datetime.lt (Some today) (start_date self)) (fun before =>
  if before then Ok "upcoming"
  else
    rbind (Py.date_cmp datetime.gt (Some today) (end_date self)) (fun after =>
    if after then Ok "ended" else Ok "active")).

Definition days_remaining (today : datetime.date) (self : t) : result (option Z) :=
  rbind (Py.date_cmp datetime.gt (Some today) (end_date self)) (fun after =>
  if after then Ok None
  else
    match end_date self with
    | Some e => Ok (Some (datetime.sub_days e today))
    | None => Raise TypeError
    end).

Definition is_active (today : datetime.date) (self : t) : result bool :=
  rbind (get_term_status today self) (fun st => Ok (String.eqb st "active")).

End AcademicTerm.

(** ** ClassTermFees *)

Module ClassTermFees.

Record t : Type := mk {
  pk : option nat;
  class_level_id : nat;
  academic_term_id : nat;
  tuition_fee : Decimal;
  meal_fee : Decimal;
  activity_fee : Decimal
}.

Definition set_pk (k : option nat) (self : t) : t :=
  mk k (class_level_id self) (academic_term_id self)
     (tuition_fee self) (meal_fee self) (activity_fee self).

(** [unique_together = ("class_level", "academic_term")] *)
Definition conflicts (a b : t) : bool :=
  Nat.eqb (class_level_id a) (class_level_id b)
  && Nat.eqb (academic_term_id a) (academic_term_id b).

Definition get_total_fees (self : t) : Decimal :=
  tuition_fee self + meal_fee self + activity_fee self.

Definition save : M (t * list t) unit :=
  model_save pk set_pk conflicts (fun row => row).

End ClassTermFees.

(** ** Learner *)

Module Learner.

Record t : Type := mk {
  pk : option nat;
  class_level : option ClassLevel.t;
  first_name : string;
  last_name : string;
  middle_name : string;
  date_of_birth : option datetime.date;
  gender : string;
  admission_date : option datetime.date;
  student_id : string;
  is_active : bool
}.

Definition set_pk (k : option nat) (self : t) : t :=
  mk k (class_level self) (first_name self) (last_name self)
     (middle_name self) (date_of_birth self) (gender self)
     (admission_date self) (student_id self) (is_active self).

Definition set_student_id (v : string) (self : t) : t :=
  mk (pk self) (class_level self) (first_name self) (last_name self)
     (middle_name self) (date_of_birth self) (gender self)
     (admission_date self) v (is_active self).

Definition set_admission_date (v : option datetime.date) (self : t) : t :=
  mk (pk self) (class_level self) (first_name self) (last_name self)
     (middle_name self) (date_of_birth self) (gender self)
     v (student_id self) (is_active self).

(** [student_id] is declared [unique=True]. *)
Definition conflicts (a b : t) : bool :=
  String.eqb (student_id a) (student_id b).

(** [admission_date] is declared [auto_now_add=True]: the field takes the
    current date when the row is inserted, whatever the object held. *)
Definition pre_insert (today : datetime.date) (self : t) : t :=
  set_admission_date (Some today) self.

(** [hasattr(self, "admission_date")]: the attribute is a field declared
    in the class body, so every instance has it, also while its value is
    still [None]. *)
Definition hasattr_admission_date (self : t) : bool := true.

(** [self.admission_date.year]: [None] has no attribute [year]. *)
Definition admission_date_year (self : t) : result Z :=
  match admission_date self with
  | Some d => Ok (datetime.year d)
  | None => Raise AttributeError
  end.

(** [self.class_level]: the descriptor of a non-null foreign key raises
    when no related object is set. *)
Definition get_class_level (self : t) : result ClassLevel.t :=
  match class_level self with
  | Some c => Ok c
  | None => Raise RelatedObjectDoesNotExist
  end.

(** Truth value of a model instance: the class defines neither
    [__bool__] nor [__len__], so every instance is true. *)
Definition bool_of_instance (c : ClassLevel.t) : bool := true.

(** [Learner.objects.filter(student_id__startswith=prefix).count()] *)
Definition count_startswith (prefix : string) (rows : list t) : Z :=
  Z.of_nat (List.length
              (filter (fun r => Py.startswith (student_id r) prefix) rows)).

(** [today] stands for [date.today()]. *)
Definition save (today : datetime.date) : M (t * list t) unit :=
  (self <- get_self ;;
   (if negb (Py.truthy (student_id self)) then
      year <- lift (if hasattr_admission_date self
                    then rbind (admission_date_year self)
                           (fun y => Ok (Py.slice_from 2 (Py.str y)))
                    else Ok (Py.slice_from 2 (Py.str (datetime.year today)))) ;;
      cond <- lift (get_class_level self) ;;
      class_code <- (if bool_of_instance cond
                     then class_level <- lift (get_class_level self) ;;
                          ret (Py.upper (Py.slice_to 3 (ClassLevel.name class_level)))
                     else ret "STU") ;;
      rows <- get_table ;;
      let existing_count := count_startswith (year ++ class_code) rows in
      set_self (set_student_id
                  (year ++ class_code ++ Py.format_03d (existing_count + 1))
                  self)
    else ret tt) ;;;
   model_save pk set_pk conflicts (pre_insert today))%py.

Definition is_admission_term (self : t) (term : AcademicTerm.t) : result bool :=
  rbind (Py.date_cmp datetime.le (AcademicTerm.start_date term)
           (admission_date self)) (fun after_start =>
  if after_start then
    Py.date_cmp datetime.le (admission_date self) (AcademicTerm.end_date term)
  else Ok false).

(** [ClassTermFees.objects.get(class_level=..., academic_term=...)]: a
    related filter needs saved instances. *)
Definition get_fees (fees : list ClassTermFees.t) (cl : ClassLevel.t)
           (term : AcademicTerm.t) : result ClassTermFees.t :=
  match ClassLevel.pk cl, AcademicTerm.pk term with
  | Some c, Some a =>
      objects_get "ClassTermFees"
        (fun r => Nat.eqb (ClassTermFees.class_level_id r) c
                  && Nat.eqb (ClassTermFees.academic_term_id r) a)
        fees
  | _, _ => Raise ValueError
  end.

Definition get_term_fees (fees : list ClassTermFees.t) (self : t)
           (term : AcademicTerm.t) : result (option Decimal) :=
  let body :=
    rbind (get_class_level self) (fun cl =>
    rbind (get_fees fees cl term) (fun row =>
    let term_fees := ClassTermFees.get_total_fees row in
    rbind (is_admission_term self term) (fun in_term =>
    if in_term then
      rbind (get_class_level self) (fun cl' =>
      Ok (Some (term_fees
                + (ClassLevel.admission_fee cl' + ClassLevel.assessment_fee cl'))))
    else Ok (Some term_fees)))) in
  match body with
  | Raise (DoesNotExist "ClassTermFees") => Ok None
  | r => r
  end.

Definition _get_age_as_of_date (self : t) (as_of_date : datetime.date) : result Z :=
  match date_of_birth self with
  | None => Raise AttributeError
  | Some birth =>
      let age := datetime.year as_of_date - datetime.year birth in
      if (datetime.month as_of_date <? datetime.month birth)
         || ((datetime.month as_of_date =? datetime.month birth)
             && (datetime.day as_of_date <? datetime.day birth))
      then Ok (age - 1)
      else Ok age
  end.

Definition age (today : datetime.date) (self : t) : result Z :=
  _get_age_as_of_date self today.

Definition age_by_june_first (today : datetime.date) (self : t)
           (year : option Z) : result Z :=
  let year := match year with
              | None => datetime.year today
              | Some y => y
              end in
  rbind (datetime.new year 6 1) (fun june_first =>
  _get_age_as_of_date self june_first).

(** Truth value of an optional integer: [None] and [0] are false. *)
Definition truthy_int (v : option Z) : bool :=
  match v with
  | None => false
  | Some n => negb (n =? 0)
  end.

Definition meets_age_criteria_for_class (today : datetime.date) (self : t)
  : result bool :=
  rbind (get_class_level self) (fun cl =>
  if negb (truthy_int (ClassLevel.age_criteria cl)) then Ok true
  else
    rbind (age_by_june_first today self None) (fun age_by_june =>
    rbind (get_class_level self) (fun cl' =>
    match ClassLevel.age_criteria cl' with
    | Some c => Ok (age_by_june >=? c)
    | None => Raise TypeError
    end))).

End Learner.

(** ** Vocabulary of the properties and sample records *)

(** Reading a digit string back: leading zeros do not count. *)
Definition digits_value (s : string) : option N :=
  option_map N.of_uint (NilEmpty.uint_of_string s).

Definition AcademicTerm_write :=
  model_save AcademicTerm.pk AcademicTerm.set_pk AcademicTerm.conflicts
    (fun row : AcademicTerm.t => row).

Definition term_2025 (s e : datetime.date) : AcademicTerm.t :=
  AcademicTerm.mk None "term1" (Some s) (Some e) 2025.

(** Order of Python tuples of two integers. *)
Definition pair_lt (a b : Z * Z) : Prop :=
  fst a < fst b \/ (fst a = fst b /\ snd a < snd b).

Definition learner_born (birth : option datetime.date) : Learner.t :=
  Learner.mk None None "Amina" "Otieno" "" birth "female" None "" true.

Definition fee_key (r : ClassTermFees.t) : nat * nat :=
  (ClassTermFees.class_level_id r, ClassTermFees.academic_term_id r).

(** [unique_together]: no two rows for one class level and term. *)
Definition unique_together (fees : list ClassTermFees.t) : Prop :=
  NoDup (map fee_key fees).

Definition fee_lookup (c a : nat) (r : ClassTermFees.t) : bool :=
  Nat.eqb (ClassTermFees.class_level_id r) c
  && Nat.eqb (ClassTermFees.academic_term_id r) a.

Definition Learner_write (today : datetime.date) :=
  model_save Learner.pk Learner.set_pk Learner.conflicts (Learner.pre_insert today).

(** The identifier that [Learner.save] builds. *)
Definition year_suffix (d : datetime.date) : string :=
  Py.slice_from 2 (Py.str (datetime.year d)).

Definition class_code (cl : ClassLevel.t) : string :=
  Py.upper (Py.slice_to 3 (ClassLevel.name cl)).

Definition id_prefix (d : datetime.date) (cl : ClassLevel.t) : string :=
  (year_suffix d ++ class_code cl)%string.

(** The last two decimal digits of a year. *)
Definition two_digits (n : Z) : string :=
  (Py.zeros (2 - String.length (Py.str n)) ++ Py.str n)%string.

Definition year_suffix_ok (y : Z) : bool :=
  String.eqb (Py.slice_from 2 (Py.str y)) (two_digits (y mod 100)).

Definition pp1 : ClassLevel.t :=
  ClassLevel.mk (Some 2%nat) "pp1" "" (Some 2) (Some 4) 500000 150000.

Definition new_learner (adm : option datetime.date) (sid : string) : Learner.t :=
  Learner.mk None (Some pp1) "Amina" "Otieno" ""
    (Some (datetime.mkdate 2020 6 15)) "female" adm sid true.

(** Sample fee schedule: PP1 (primary key 2) in terms 1 and 2, and the
    beginner class (primary key 1) in term 1. *)
Definition sample_fees : list ClassTermFees.t :=
  [ ClassTermFees.mk (Some 1%nat) 2 1 1500000 300000 50000;
    ClassTermFees.mk (Some 2%nat) 2 2 1500000 300000 0;
    ClassTermFees.mk (Some 3%nat) 1 1 1200000 300000 0 ].

Definition saved_term (k : nat) (name : string) (s e : datetime.date)
  : AcademicTerm.t :=
  AcademicTerm.mk (Some k) name (Some s) (Some e) 2025.

Definition term1 : AcademicTerm.t :=
  saved_term 1 "term1" (datetime.mkdate 2025 1 6) (datetime.mkdate 2025 4 4).

Definition term2 : AcademicTerm.t :=
  saved_term 2 "term2" (datetime.mkdate 2025 5 5) (datetime.mkdate 2025 8 1).

Definition term3 : AcademicTerm.t :=
  saved_term 3 "term3" (datetime.mkdate 2025 8 25) (datetime.mkdate 2025 11 21).

(** A table in good order: every row has a primary key and no key occurs
    twice. *)
Definition keyed {A : Type} (get_pk : A -> option nat) (t : list A) : Prop :=
  NoDup (map get_pk t) /\ Forall (fun r => get_pk r <> None) t.

(** No two rows of the table conflict. *)
Definition conflict_free {A : Type} (conflicts : A -> A -> bool) (t : list A)
  : Prop :=
  ForallOrdPairs (fun a b => conflicts a b = false) t.

(** ** Facts about dates *)

Section DateFacts.
Import datetime.

Lemma days_before_year_succ (y : Z) :
  _days_before_year (y + 1)
  = _days_before_year y + (if _is_leap y then 366 else 365).
Proof.
  unfold _days_before_year, _is_leap.
  replace (y + 1 - 1) with y by lia.
  destruct (Z.eqb_spec (y mod 4) 0), (Z.eqb_spec (y mod 100) 0),
    (Z.eqb_spec (y mod 400) 0); cbn [andb orb negb];
    Z.to_euclidean_division_equations; lia.
Qed.

Lemma days_before_year_mono (y1 y2 : Z) :
  y1 <= y2 -> _days_before_year y1 <= _days_before_year y2.
Proof.
  unfold _days_before_year. intros H.
  Z.to_euclidean_division_equations; lia.
Qed.

Lemma month_cases (m : Z) :
  1 <= m <= 12 ->
  m = 1 \/ m = 2 \/ m = 3 \/ m = 4 \/ m = 5 \/ m = 6 \/ m = 7 \/ m = 8
  \/ m = 9 \/ m = 10 \/ m = 11 \/ m = 12.
Proof. lia. Qed.

Lemma days_before_month_succ (y m : Z) :
  1 <= m <= 11 ->
  _days_before_month y (m + 1) = _days_before_month y m + _days_in_month y m.
Proof.
  intros H. unfold _days_before_month, _days_in_month.
  assert (Hc : 1 <= m <= 12) by lia.
  destruct (month_cases m Hc) as [E|[E|[E|[E|[E|[E|[E|[E|[E|[E|[E|E]]]]]]]]]]];
    subst m; try lia; destruct (_is_leap y); reflexivity.
Qed.

Lemma days_in_month_pos (y m : Z) : 1 <= m <= 12 -> 28 <= _days_in_month y m.
Proof.
  intros H. unfold _days_in_month.
  destruct (month_cases m H) as [E|[E|[E|[E|[E|[E|[E|[E|[E|[E|[E|E]]]]]]]]]]];
    subst m; destruct (_is_leap y); cbn; lia.
Qed.

Lemma days_before_month_lt (y m1 m2 : Z) :
  1 <= m1 -> m1 < m2 -> m2 <= 12 ->
  _days_before_month y m1 + _days_in_month y m1 <= _days_before_month y m2.
Proof.
  intros H1 H12 H2.
  assert (Hc1 : 1 <= m1 <= 12) by lia.
  assert (Hc2 : 1 <= m2 <= 12) by lia.
  unfold _days_before_month, _days_in_month.
  destruct (month_cases m1 Hc1) as [E|[E|[E|[E|[E|[E|[E|[E|[E|[E|[E|E]]]]]]]]]]];
    subst m1;
    destruct (month_cases m2 Hc2) as [F|[F|[F|[F|[F|[F|[F|[F|[F|[F|[F|F]]]]]]]]]]];
    subst m2; try lia; destruct (_is_leap y); cbn; lia.
Qed.

Lemma days_before_month_end (y m : Z) :
  1 <= m <= 12 ->
  _days_before_month y m + _days_in_month y m
  <= (if _is_leap y then 366 else 365).
Proof.
  intros H. unfold _days_before_month, _days_in_month.
  destruct (month_cases m H) as [E|[E|[E|[E|[E|[E|[E|[E|[E|[E|[E|E]]]]]]]]]]];
    subst m; destruct (_is_leap y); cbn; lia.
Qed.

Lemma days_before_month_nonneg (y m : Z) : 0 <= _days_before_month y m.
Proof.
  unfold _days_before_month.
  assert (0 <= _DAYS_BEFORE_MONTH m).
  { unfold _DAYS_BEFORE_MONTH.
    destruct m as [|p|p]; try lia.
    do 4 (destruct p as [p|p|]; try lia). }
  destruct ((m >? 2) && _is_leap y); lia.
Qed.

Lemma valid_bounds (d : date) :
  valid d = true ->
  1 <= month d <= 12 /\ 1 <= day d <= _days_in_month (year d) (month d).
Proof.
  unfold valid. rewrite !andb_true_iff, !Z.leb_le. lia.
Qed.

Lemma datetime_lt_spec (a b : date) :
  lt a b = true <->
  year a < year b
  \/ (year a = year b
      /\ (month a < month b \/ (month a = month b /\ day a < day b))).
Proof.
  unfold lt.
  rewrite !orb_true_iff, !andb_true_iff, !orb_true_iff, !andb_true_iff,
    !Z.ltb_lt, !Z.eqb_eq. tauto.
Qed.

(** The ordinal of a date grows with the date. *)
Lemma toordinal_lt (a b : date) :
  valid a = true -> valid b = true ->
  lt a b = true -> toordinal a < toordinal b.
Proof.
  intros Va Vb H. apply datetime_lt_spec in H.
  apply valid_bounds in Va, Vb.
  destruct Va as [Ma Da], Vb as [Mb Db].
  unfold toordinal, _ymd2ord.
  destruct H as [Hy | [Hy [Hm | [Hm Hd]]]].
  - pose proof (days_before_month_end (year a) (month a) Ma).
    pose proof (days_before_year_succ (year a)).
    pose proof (days_before_year_mono (year a + 1) (year b) ltac:(lia)).
    pose proof (days_before_month_nonneg (year b) (month b)).
    destruct (_is_leap (year a)); lia.
  - rewrite Hy in *.
    pose proof (days_before_month_lt (year b) (month a) (month b)
                  ltac:(lia) Hm ltac:(lia)).
    lia.
  - rewrite Hy, Hm in *. lia.
Qed.

Lemma toordinal_le (a b : date) :
  valid a = true -> valid b = true ->
  le a b = true -> toordinal a <= toordinal b.
Proof.
  intros Va Vb H. unfold le in H. apply negb_true_iff in H.
  destruct (lt a b) eqn:E.
  - apply toordinal_lt in E; auto; lia.
  - assert (a = b).
    { destruct a as [ya ma da], b as [yb mb db].
      assert (Hn1 : ~ (lt {| year := yb; month := mb; day := db |}
                         {| year := ya; month := ma; day := da |} = true))
        by congruence.
      assert (Hn2 : ~ (lt {| year := ya; month := ma; day := da |}
                         {| year := yb; month := mb; day := db |} = true))
        by congruence.
      rewrite datetime_lt_spec in Hn1, Hn2. cbn in *.
      f_equal; lia. }
    subst. lia.
Qed.

Lemma lt_trans_le (a b c : date) :
  lt a b = true -> le b c = true -> lt a c = true.
Proof.
  unfold le. rewrite negb_true_iff. intros H1 H2.
  assert (Hn : ~ (lt c b = true)) by congruence.
  rewrite datetime_lt_spec in *. lia.
Qed.

End DateFacts.

(** ** Facts about strings and decimal output *)

Section StringFacts.

Lemma prefix_app (p s : string) : String.prefix p (p ++ s) = true.
Proof.
  induction p as [|c p IH]; cbn.
  - destruct s; reflexivity.
  - destruct (ascii_dec c c) as [_|N]; [exact IH | contradiction].
Qed.

Lemma append_assoc (a b c : string) :
  ((a ++ b) ++ c = a ++ (b ++ c))%string.
Proof.
  induction a as [|x a IH]; cbn; [reflexivity | now rewrite IH].
Qed.

Lemma append_inj_l (p a b : string) : (p ++ a = p ++ b)%string -> a = b.
Proof.
  induction p as [|c p IH]; cbn; intros H; [exact H|].
  injection H as H. auto.
Qed.

Lemma digits_value_zeros (k : nat) (s : string) :
  digits_value (Py.zeros k ++ s) = digits_value s.
Proof.
  induction k as [|k IH]; cbn; [reflexivity|].
  unfold digits_value in *. cbn.
  destruct (NilEmpty.uint_of_string (Py.zeros k ++ s)) as [d|];
    destruct (NilEmpty.uint_of_string s) as [d'|]; cbn in *;
    unfold N.of_uint in *; congruence.
Qed.

Lemma digits_value_str (n : Z) :
  0 <= n -> digits_value (Py.str n) = Some (Z.to_N n).
Proof.
  intros H. unfold digits_value, Py.str.
  destruct n as [|p|p]; try lia; cbn.
  - reflexivity.
  - rewrite NilEmpty.usu. cbn. f_equal. apply DecimalPos.Unsigned.of_to.
Qed.

Lemma digits_value_format_03d (n : Z) :
  0 <= n -> digits_value (Py.format_03d n) = Some (Z.to_N n).
Proof.
  intros H. unfold Py.format_03d.
  destruct (Z.ltb_spec n 0); [lia|].
  cbn [append]. rewrite digits_value_zeros, Z.abs_eq by lia.
  now apply digits_value_str.
Qed.

Lemma format_03d_inj (a b : Z) :
  0 <= a -> 0 <= b -> Py.format_03d a = Py.format_03d b -> a = b.
Proof.
  intros Ha Hb E.
  pose proof (digits_value_format_03d a Ha) as Ea.
  pose proof (digits_value_format_03d b Hb) as Eb.
  rewrite E in Ea. rewrite Ea in Eb. injection Eb as Eb. lia.
Qed.

End StringFacts.

(** ** Facts about the write of a row *)

Section ModelSaveFacts.

Context {A : Type}.
Variable get_pk : A -> option nat.
Variable set_pk : option nat -> A -> A.
Variable conflicts : A -> A -> bool.
Variable pre_insert : A -> A.

(** Whatever the write does to the object, it goes through [set_pk]
    and [pre_insert] only. *)
Lemma model_save_self (P : A -> Prop) (self : A) (t : list A) :
  (forall k x, P x -> P (set_pk k x)) ->
  (forall x, P x -> P (pre_insert x)) ->
  P self -> P (fst (snd (model_save get_pk set_pk conflicts pre_insert (self, t)))).
Proof.
  intros Hset Hpre HP. unfold model_save, update_row, insert_row.
  destruct (get_pk self) as [k|].
  - destruct (existsb (has_pk get_pk k) t).
    + destruct (existsb (conflicts self) (others get_pk k t)); cbn; auto.
    + destruct (existsb (conflicts (pre_insert self)) t); cbn; auto.
  - destruct (existsb (conflicts (pre_insert self)) t); cbn; auto.
Qed.

Lemma replace_row_in (k : nat) (obj : A) (t : list A) :
  existsb (has_pk get_pk k) t = true -> In obj (replace_row get_pk k obj t).
Proof.
  induction t as [|r t IH]; cbn; [discriminate|].
  destruct (has_pk get_pk k r); cbn; auto.
Qed.

(** A write that succeeded left the object in the table. *)
Lemma model_save_ok_in (self : A) (t : list A) :
  fst (model_save get_pk set_pk conflicts pre_insert (self, t)) = Ok tt ->
  In (fst (snd (model_save get_pk set_pk conflicts pre_insert (self, t))))
     (snd (snd (model_save get_pk set_pk conflicts pre_insert (self, t)))).
Proof.
  unfold model_save, update_row, insert_row.
  destruct (get_pk self) as [k|].
  - destruct (existsb (has_pk get_pk k) t) eqn:E.
    + destruct (existsb (conflicts self) (others get_pk k t)); cbn;
        [discriminate|]. intros _. now apply replace_row_in.
    + destruct (existsb (conflicts (pre_insert self)) t); cbn;
        [discriminate|]. intros _. apply in_or_app. right. now left.
  - destruct (existsb (conflicts (pre_insert self)) t); cbn;
      [discriminate|]. intros _. apply in_or_app. right. now left.
Qed.

(** A refused write leaves the table as it was. *)
Lemma model_save_raise_table (self : A) (t : list A) (e : exn) :
  fst (model_save get_pk set_pk conflicts pre_insert (self, t)) = Raise e ->
  snd (snd (model_save get_pk set_pk conflicts pre_insert (self, t))) = t.
Proof.
  unfold model_save, update_row, insert_row.
  destruct (get_pk self) as [k|].
  - destruct (existsb (has_pk get_pk k) t) eqn:E.
    + destruct (existsb (conflicts self) (others get_pk k t)); cbn;
        [reflexivity|discriminate].
    + destruct (existsb (conflicts (pre_insert self)) t); cbn;
        [reflexivity|discriminate].
  - destruct (existsb (conflicts (pre_insert self)) t); cbn;
      [reflexivity|discriminate].
Qed.

(** The successful write of an object without primary key appends one
    row, the object as it is after the write. *)
Lemma model_save_insert (self self' : A) (t t' : list A) :
  get_pk self = None ->
  model_save get_pk set_pk conflicts pre_insert (self, t) = (Ok tt, (self', t')) ->
  t' = (t ++ [self'])%list
  /\ self' = set_pk (Some (match get_pk (pre_insert self) with
                           | Some k => k
                           | None => fresh_pk get_pk t
                           end)) (pre_insert self).
Proof.
  intros Hpk. unfold model_save, insert_row. rewrite Hpk.
  destruct (existsb (conflicts (pre_insert self)) t); [discriminate|].
  intros H. injection H as <- <-. split; reflexivity.
Qed.

End ModelSaveFacts.

(** ** ClassLevel: the order of a class level *)

Lemma index_nth (x : string) (xs : list string) (i : nat) :
  NoDup xs -> nth_error xs i = Some x -> Py.index x xs = Ok (Z.of_nat i).
Proof.
  revert i. induction xs as [|y ys IH]; intros i Hnd Hi.
  - destruct i; discriminate.
  - inversion Hnd as [|? ? Hy Hnd']; subst. cbn.
    destruct i as [|i]; cbn in Hi.
    + injection Hi as ->. now rewrite String.eqb_refl.
    + destruct (String.eqb_spec y x) as [->|_].
      * exfalso. apply Hy. eapply nth_error_In; eauto.
      * rewrite (IH i Hnd' Hi). cbn. f_equal. lia.
Qed.

Lemma index_absent (x : string) (xs : list string) :
  ~ In x xs -> Py.index x xs = Raise ValueError.
Proof.
  induction xs as [|y ys IH]; intros H; cbn; [reflexivity|].
  destruct (String.eqb_spec y x) as [->|_].
  - exfalso. apply H. now left.
  - rewrite IH; [reflexivity|]. intros Hin. apply H. now right.
Qed.

Lemma index_ok_or_value_error (x : string) (xs : list string) :
  (exists i, Py.index x xs = Ok i) \/ Py.index x xs = Raise ValueError.
Proof.
  induction xs as [|y ys IH]; cbn; [now right|].
  destruct (String.eqb y x); [left; eauto|].
  destruct IH as [[i ->]| ->]; cbn; [left; eauto | now right].
Qed.

Lemma choice_values_nodup : NoDup (map fst ClassLevel.MODEL_CHOICES).
Proof.
  cbn. repeat constructor; cbn; intuition discriminate.
Qed.

(** What [ClassLevel.save] does before it writes. *)
Lemma ClassLevel_save_unfold (self : ClassLevel.t) (tbl : list ClassLevel.t) :
  exists v,
    (match Py.index (ClassLevel.name self) (map fst ClassLevel.MODEL_CHOICES) with
     | Ok i => v = i + 1
     | Raise _ => v = 999
     end)
    /\ ClassLevel.save (self, tbl)
       = model_save ClassLevel.pk ClassLevel.set_pk ClassLevel.conflicts
           (fun row => row) (ClassLevel.set_class_order v self, tbl).
Proof.
  unfold ClassLevel.save, bind, get_self. cbn [fst snd].
  destruct (index_ok_or_value_error (ClassLevel.name self)
              (map fst ClassLevel.MODEL_CHOICES)) as [[i E]|E]; rewrite E.
  - exists (i + 1). split; reflexivity.
  - exists 999. split; reflexivity.
Qed.

(** Claim C6.  Every save of a class level, whatever the object held
    before and whether the row is new or not, leaves [class_order] at the
    position of the name in the canonical enumeration plus one, and at
    999 when the name is not in the enumeration; a save that succeeded
    has written the object with that order. *)
Theorem class_order_set_on_every_save
        (self : ClassLevel.t) (tbl : list ClassLevel.t) :
  let out := ClassLevel.save (self, tbl) in
  let self' := fst (snd out) in
  (forall i : nat,
      nth_error (map fst ClassLevel.MODEL_CHOICES) i = Some (ClassLevel.name self) ->
      ClassLevel.class_order self' = Some (Z.of_nat i + 1))
  /\ (~ In (ClassLevel.name self) (map fst ClassLevel.MODEL_CHOICES) ->
      ClassLevel.class_order self' = Some 999)
  /\ (fst out = Ok tt -> In self' (snd (snd out))).
Proof.
  cbv zeta.
  destruct (ClassLevel_save_unfold self tbl) as [v [Hv ->]].
  assert (Hord : ClassLevel.class_order
                   (fst (snd (model_save ClassLevel.pk ClassLevel.set_pk
                                ClassLevel.conflicts (fun row => row)
                                (ClassLevel.set_class_order v self, tbl))))
                 = Some v).
  { apply (model_save_self ClassLevel.pk ClassLevel.set_pk ClassLevel.conflicts
             (fun row => row) (fun x => ClassLevel.class_order x = Some v));
      auto. }
  repeat split.
  - intros i Hi. rewrite Hord.
    rewrite (index_nth _ _ i choice_values_nodup Hi) in Hv. now subst.
  - intros Hn. rewrite Hord. rewrite (index_absent _ _ Hn) in Hv. now subst.
  - apply model_save_ok_in.
Qed.

Example class_order_examples :
  forall tbl,
    map (fun n => ClassLevel.class_order
                    (fst (snd (ClassLevel.save
                                 (ClassLevel.mk None n "" (Some 42) None 0 0, tbl)))))
        ["beginner"; "pp1"; "pp2"; "grade1"; "grade2"; "grade3"]
    = [Some 1; Some 2; Some 3; Some 4; Some 5; Some 999].
Proof.
  intros tbl. cbn [map]. repeat f_equal.
  all: match goal with
       | |- ClassLevel.class_order (fst (snd (ClassLevel.save (?s, _)))) = _ =>
           destruct (ClassLevel_save_unfold s tbl) as [v [Hv ->]];
           cbn in Hv; subst v;
           apply (model_save_self ClassLevel.pk ClassLevel.set_pk
                    ClassLevel.conflicts (fun row => row)
                    (fun x => ClassLevel.class_order x = Some _)); auto
       end.
Qed.

(** ** AcademicTerm: validation on save *)

Lemma AcademicTerm_save_unfold (self : AcademicTerm.t) (tbl : list AcademicTerm.t) :
  AcademicTerm.save (self, tbl)
  = match AcademicTerm.clean self with
    | Ok _ => AcademicTerm_write (self, tbl)
    | Raise e => (Raise e, (self, tbl))
    end.
Proof.
  unfold AcademicTerm.save, bind, get_self, lift. cbn [fst snd].
  destruct (AcademicTerm.clean self); reflexivity.
Qed.

(** Claim C5.  A term with both dates present whose end date is not after
    its start date is refused on save with a validation error on
    [end_date], and the table is left as it was: nothing is written. *)
Theorem end_not_after_start_rejected
        (self : AcademicTerm.t) (tbl : list AcademicTerm.t)
        (s e : datetime.date) :
  AcademicTerm.start_date self = Some s ->
  AcademicTerm.end_date self = Some e ->
  datetime.le e s = true ->
  AcademicTerm.save (self, tbl)
  = (Raise (ValidationError "end_date" "End date must be after the start date."),
     (self, tbl)).
Proof.
  intros Hs He Hle. rewrite AcademicTerm_save_unfold.
  unfold AcademicTerm.clean. now rewrite Hs, He, Hle.
Qed.

Lemma end_not_after_start_rejected_witness :
  AcademicTerm.save
    (term_2025 (datetime.mkdate 2025 5 1) (datetime.mkdate 2025 5 1),
     [term_2025 (datetime.mkdate 2024 1 8) (datetime.mkdate 2024 4 5)])
  = (Raise (ValidationError "end_date" "End date must be after the start date."),
     (term_2025 (datetime.mkdate 2025 5 1) (datetime.mkdate 2025 5 1),
      [term_2025 (datetime.mkdate 2024 1 8) (datetime.mkdate 2024 4 5)])).
Proof.
  apply (end_not_after_start_rejected _ _ (datetime.mkdate 2025 5 1)
           (datetime.mkdate 2025 5 1)); reflexivity.
Defined.

(** Claim C4.  For a term with both dates present and the end date after
    the start date: a duration under 60 days or over 120 days makes the
    save fail with a validation error on [end_date], nothing being
    written; a duration of exactly 60 or exactly 120 days passes the
    validation and the save goes on to the write. *)
Theorem term_duration_bounds
        (self : AcademicTerm.t) (tbl : list AcademicTerm.t)
        (s e : datetime.date) :
  AcademicTerm.start_date self = Some s ->
  AcademicTerm.end_date self = Some e ->
  datetime.gt e s = true ->
  let duration := datetime.sub_days e s in
  (duration < 60 \/ 120 < duration ->
   exists message,
     AcademicTerm.save (self, tbl)
     = (Raise (ValidationError "end_date" message), (self, tbl)))
  /\ (duration = 60 \/ duration = 120 ->
      AcademicTerm.clean self = Ok tt
      /\ AcademicTerm.save (self, tbl)
         = model_save AcademicTerm.pk AcademicTerm.set_pk AcademicTerm.conflicts
             (fun row => row) (self, tbl)).
Proof.
  intros Hs He Hgt duration.
  assert (Hle : datetime.le e s = false).
  { unfold datetime.le. unfold datetime.gt in Hgt. now rewrite Hgt. }
  rewrite AcademicTerm_save_unfold.
  unfold AcademicTerm.clean. rewrite Hs, He, Hle. fold duration.
  split.
  - intros [H | H].
    + destruct (Z.ltb_spec duration 60); [|lia]. eauto.
    + destruct (Z.ltb_spec duration 60); [eauto|].
      rewrite Z.gtb_ltb. destruct (Z.ltb_spec 120 duration); [|lia]. eauto.
  - intros H.
    destruct (Z.ltb_spec duration 60); [lia|].
    rewrite Z.gtb_ltb. destruct (Z.ltb_spec 120 duration); [lia|].
    split; reflexivity.
Qed.

Lemma term_duration_bounds_witness :
  let self := term_2025 (datetime.mkdate 2025 1 6) (datetime.mkdate 2025 3 7) in
  let duration :=
    datetime.sub_days (datetime.mkdate 2025 3 7) (datetime.mkdate 2025 1 6) in
  (duration < 60 \/ 120 < duration ->
   exists message,
     AcademicTerm.save (self, [])
     = (Raise (ValidationError "end_date" message), (self, [])))
  /\ (duration = 60 \/ duration = 120 ->
      AcademicTerm.clean self = Ok tt
      /\ AcademicTerm.save (self, [])
         = model_save AcademicTerm.pk AcademicTerm.set_pk AcademicTerm.conflicts
             (fun row => row) (self, [])).
Proof.
  apply (term_duration_bounds
           (term_2025 (datetime.mkdate 2025 1 6) (datetime.mkdate 2025 3 7)) []
           (datetime.mkdate 2025 1 6) (datetime.mkdate 2025 3 7));
    reflexivity.
Defined.

(** The four durations around the two bounds, on concrete terms. *)
Example term_duration_examples :
  datetime.sub_days (datetime.mkdate 2025 3 6) (datetime.mkdate 2025 1 6) = 59
  /\ is_ok (AcademicTerm.clean
              (term_2025 (datetime.mkdate 2025 1 6) (datetime.mkdate 2025 3 6)))
     = false
  /\ datetime.sub_days (datetime.mkdate 2025 3 7) (datetime.mkdate 2025 1 6) = 60
  /\ AcademicTerm.clean
       (term_2025 (datetime.mkdate 2025 1 6) (datetime.mkdate 2025 3 7)) = Ok tt
  /\ datetime.sub_days (datetime.mkdate 2025 5 6) (datetime.mkdate 2025 1 6) = 120
  /\ AcademicTerm.clean
       (term_2025 (datetime.mkdate 2025 1 6) (datetime.mkdate 2025 5 6)) = Ok tt
  /\ datetime.sub_days (datetime.mkdate 2025 5 7) (datetime.mkdate 2025 1 6) = 121
  /\ is_ok (AcademicTerm.clean
              (term_2025 (datetime.mkdate 2025 1 6) (datetime.mkdate 2025 5 7)))
     = false.
Proof. repeat split. Qed.

(** An accepted term is written: with no other term of that name in
    the table, the save of a 60-day term succeeds. *)
Example sixty_day_term_saved :
  AcademicTerm.save
    (term_2025 (datetime.mkdate 2025 1 6) (datetime.mkdate 2025 3 7), [])
  = (Ok tt,
     (AcademicTerm.set_pk (Some 1%nat)
        (term_2025 (datetime.mkdate 2025 1 6) (datetime.mkdate 2025 3 7)),
      [AcademicTerm.set_pk (Some 1%nat)
         (term_2025 (datetime.mkdate 2025 1 6) (datetime.mkdate 2025 3 7))])).
Proof. reflexivity. Qed.

(** ** AcademicTerm: status and days remaining *)

(** What [days_remaining] returns, case by case. *)
Lemma days_remaining_spec (self : AcademicTerm.t) (today e : datetime.date) :
  AcademicTerm.end_date self = Some e ->
  (datetime.gt today e = true ->
   AcademicTerm.days_remaining today self = Ok None)
  /\ (datetime.gt today e = false ->
      AcademicTerm.days_remaining today self
      = Ok (Some (datetime.toordinal e - datetime.toordinal today))).
Proof.
  intros He. unfold AcademicTerm.days_remaining. rewrite He. cbn.
  split; intros ->; reflexivity.
Qed.

(** Claim C3.  The value that [days_remaining] returns is never
    negative: it is absent once the current date is past the end date,
    and the end date minus the current date otherwise, which is then at
    least zero.  The docstring of the method announces a negative
    number for a term that has not started. *)
Theorem days_remaining_never_negative
        (self : AcademicTerm.t) (today : datetime.date) (n : Z) :
  datetime.valid today = true ->
  (forall e, AcademicTerm.end_date self = Some e -> datetime.valid e = true) ->
  AcademicTerm.days_remaining today self = Ok (Some n) ->
  0 <= n.
Proof.
  intros Vt Ve. unfold AcademicTerm.days_remaining.
  destruct (AcademicTerm.end_date self) as [e|]; cbn; [|discriminate].
  destruct (datetime.gt today e) eqn:G; [discriminate|].
  intros H. injection H as <-.
  unfold datetime.sub_days.
  assert (datetime.le today e = true).
  { unfold datetime.le. unfold datetime.gt in G. now rewrite G. }
  pose proof (toordinal_le today e Vt (Ve e eq_refl) H). lia.
Qed.

Lemma days_remaining_never_negative_witness :
  AcademicTerm.days_remaining (datetime.mkdate 2025 4 1)
    (term_2025 (datetime.mkdate 2025 5 1) (datetime.mkdate 2025 7 30))
  = Ok (Some 120)
  /\ 0 <= 120.
Proof.
  split; [reflexivity|].
  apply (days_remaining_never_negative
           (term_2025 (datetime.mkdate 2025 5 1) (datetime.mkdate 2025 7 30))
           (datetime.mkdate 2025 4 1) 120).
  - reflexivity.
  - intros e H. injection H as <-. reflexivity.
  - reflexivity.
Defined.

(** A term that has not begun: the value is the whole distance to the
    end date, which is positive. *)
Lemma days_remaining_before_start
      (self : AcademicTerm.t) (today s e : datetime.date) :
  datetime.valid today = true -> datetime.valid e = true ->
  AcademicTerm.start_date self = Some s ->
  AcademicTerm.end_date self = Some e ->
  datetime.lt today s = true -> datetime.le s e = true ->
  AcademicTerm.get_term_status today self = Ok "upcoming"
  /\ AcademicTerm.days_remaining today self
     = Ok (Some (datetime.sub_days e today))
  /\ 0 < datetime.sub_days e today.
Proof.
  intros Vt Ve Hs He Hlt Hle.
  pose proof (lt_trans_le _ _ _ Hlt Hle) as Hte.
  assert (G : datetime.gt today e = false).
  { unfold datetime.gt. destruct (datetime.lt e today) eqn:E; [|reflexivity].
    exfalso. apply datetime_lt_spec in E, Hte. lia. }
  repeat split.
  - unfold AcademicTerm.get_term_status. rewrite Hs. cbn. now rewrite Hlt.
  - unfold AcademicTerm.days_remaining. rewrite He. cbn. now rewrite G.
  - unfold datetime.sub_days.
    pose proof (toordinal_lt today e Vt Ve Hte). lia.
Qed.

Example days_remaining_upcoming_term :
  let term := term_2025 (datetime.mkdate 2025 5 1) (datetime.mkdate 2025 7 30) in
  let today := datetime.mkdate 2025 4 1 in
  AcademicTerm.get_term_status today term = Ok "upcoming"
  /\ AcademicTerm.days_remaining today term = Ok (Some 120).
Proof. split; reflexivity. Qed.

(** Claim C10, amended.  For a term whose end date is not before its start
    date, [days_remaining] is absent if and only if the status is
    "ended", and a term reported as upcoming or active has a numeric
    days-remaining value. *)
Theorem days_remaining_none_iff_ended
        (self : AcademicTerm.t) (today s e : datetime.date) :
  AcademicTerm.start_date self = Some s ->
  AcademicTerm.end_date self = Some e ->
  datetime.le s e = true ->
  (AcademicTerm.days_remaining today self = Ok None
   <-> AcademicTerm.get_term_status today self = Ok "ended")
  /\ (AcademicTerm.get_term_status today self = Ok "upcoming"
      \/ AcademicTerm.get_term_status today self = Ok "active" ->
      exists n, AcademicTerm.days_remaining today self = Ok (Some n)).
Proof.
  intros Hs He Hle.
  unfold AcademicTerm.days_remaining, AcademicTerm.get_term_status.
  rewrite Hs, He. cbn.
  destruct (datetime.lt today s) eqn:L.
  - pose proof (lt_trans_le _ _ _ L Hle) as Hte.
    assert (G : datetime.gt today e = false).
    { unfold datetime.gt. destruct (datetime.lt e today) eqn:E; [|reflexivity].
      exfalso. apply datetime_lt_spec in E, Hte. lia. }
    rewrite G. split; [split; discriminate | eauto].
  - destruct (datetime.gt today e); split.
    + split; reflexivity.
    + intros [H|H]; discriminate.
    + split; discriminate.
    + eauto.
Qed.

Lemma days_remaining_none_iff_ended_witness :
  let term := term_2025 (datetime.mkdate 2025 5 1) (datetime.mkdate 2025 7 30) in
  let today := datetime.mkdate 2025 8 15 in
  (AcademicTerm.days_remaining today term = Ok None
   <-> AcademicTerm.get_term_status today term = Ok "ended")
  /\ (AcademicTerm.get_term_status today term = Ok "upcoming"
      \/ AcademicTerm.get_term_status today term = Ok "active" ->
      exists n, AcademicTerm.days_remaining today term = Ok (Some n)).
Proof.
  apply (days_remaining_none_iff_ended
           (term_2025 (datetime.mkdate 2025 5 1) (datetime.mkdate 2025 7 30))
           (datetime.mkdate 2025 8 15)
           (datetime.mkdate 2025 5 1) (datetime.mkdate 2025 7 30));
    reflexivity.
Defined.

(** A term whose end date precedes its start date, on a day between the
    two: reported as upcoming, with no days-remaining value. *)
Lemma days_remaining_none_but_upcoming :
  let term := term_2025 (datetime.mkdate 2025 9 1) (datetime.mkdate 2025 5 1) in
  let today := datetime.mkdate 2025 6 1 in
  AcademicTerm.get_term_status today term = Ok "upcoming"
  /\ AcademicTerm.days_remaining today term = Ok None
  /\ ~ (AcademicTerm.days_remaining today term = Ok None
        <-> AcademicTerm.get_term_status today term = Ok "ended").
Proof.
  cbv zeta. repeat split.
  intros [H _]. specialize (H eq_refl). discriminate H.
Qed.

(** ** Learner: age and fees of a term *)

(** Claim C7.  The age as of a reference date is the difference of the
    years, less one exactly when (month, day) of the reference date is
    smaller than (month, day) of the birth date in the order of pairs; a
    learner born on 2020-06-15 is 4 on 2025-06-01 and 5 on 2025-06-15. *)
Theorem calendar_age_spec (self : Learner.t) (birth as_of : datetime.date) :
  Learner.date_of_birth self = Some birth ->
  (pair_lt (datetime.month as_of, datetime.day as_of)
           (datetime.month birth, datetime.day birth) ->
   Learner._get_age_as_of_date self as_of
   = Ok (datetime.year as_of - datetime.year birth - 1))
  /\ (~ pair_lt (datetime.month as_of, datetime.day as_of)
               (datetime.month birth, datetime.day birth) ->
      Learner._get_age_as_of_date self as_of
      = Ok (datetime.year as_of - datetime.year birth))
  /\ (birth = datetime.mkdate 2020 6 15 ->
      Learner._get_age_as_of_date self (datetime.mkdate 2025 6 1) = Ok 4
      /\ Learner._get_age_as_of_date self (datetime.mkdate 2025 6 15) = Ok 5).
Proof.
  intros Hb. unfold Learner._get_age_as_of_date, pair_lt. rewrite Hb. cbn [fst snd].
  repeat split.
  - intros H.
    replace ((datetime.month as_of <? datetime.month birth)
             || (datetime.month as_of =? datetime.month birth)
                && (datetime.day as_of <? datetime.day birth)) with true;
      [reflexivity|].
    symmetry. rewrite orb_true_iff, andb_true_iff, !Z.ltb_lt, Z.eqb_eq. exact H.
  - intros H.
    replace ((datetime.month as_of <? datetime.month birth)
             || (datetime.month as_of =? datetime.month birth)
                && (datetime.day as_of <? datetime.day birth)) with false;
      [reflexivity|].
    symmetry. apply not_true_is_false.
    rewrite orb_true_iff, andb_true_iff, !Z.ltb_lt, Z.eqb_eq. exact H.
  - subst birth. reflexivity.
  - subst birth. reflexivity.
Qed.

Lemma calendar_age_spec_witness :
  Learner._get_age_as_of_date
    (learner_born (Some (datetime.mkdate 2020 6 15))) (datetime.mkdate 2025 6 1)
  = Ok 4
  /\ Learner._get_age_as_of_date
       (learner_born (Some (datetime.mkdate 2020 6 15))) (datetime.mkdate 2025 6 15)
     = Ok 5.
Proof.
  apply (calendar_age_spec (learner_born (Some (datetime.mkdate 2020 6 15)))
           (datetime.mkdate 2020 6 15) (datetime.mkdate 2025 6 1) eq_refl).
  reflexivity.
Defined.

(** *** Fees *)

Lemma fee_lookup_key (c a : nat) (r : ClassTermFees.t) :
  fee_lookup c a r = true <-> fee_key r = (c, a).
Proof.
  unfold fee_lookup, fee_key. rewrite andb_true_iff, !Nat.eqb_eq.
  split; [intros [-> ->]; reflexivity | intros H; now injection H].
Qed.

Lemma filter_none (c a : nat) (fees : list ClassTermFees.t) :
  (forall row, In row fees -> fee_key row <> (c, a)) ->
  filter (fee_lookup c a) fees = [].
Proof.
  induction fees as [|r fees IH]; intros H; cbn; [reflexivity|].
  destruct (fee_lookup c a r) eqn:E.
  - apply fee_lookup_key in E. exfalso. apply (H r); [now left | exact E].
  - apply IH. intros row Hin. apply H. now right.
Qed.

Lemma filter_unique (c a : nat) (fees : list ClassTermFees.t) (row : ClassTermFees.t) :
  unique_together fees -> In row fees -> fee_key row = (c, a) ->
  filter (fee_lookup c a) fees = [row].
Proof.
  unfold unique_together.
  induction fees as [|r fees IH]; intros Hnd Hin Hk; [contradiction|].
  cbn in Hnd. inversion Hnd as [|? ? Hr Hnd']; subst. cbn.
  destruct Hin as [-> | Hin].
  - apply fee_lookup_key in Hk as Hl. rewrite Hl. f_equal.
    apply filter_none. intros r' Hin' Hk'. apply Hr.
    rewrite Hk, <- Hk'. now apply in_map.
  - destruct (fee_lookup c a r) eqn:E.
    + apply fee_lookup_key in E. exfalso. apply Hr.
      rewrite E, <- Hk. now apply in_map.
    + now apply IH.
Qed.

(** Claim C1.  For a learner of a saved class level and a saved term, over
    a fee table that respects its uniqueness constraint: without a fee
    row for (class level, term) [get_term_fees] returns [None]; with
    one, the result is the total of the row plus the admission and
    assessment fees of the class level exactly when the admission date
    lies in the term, both ends included, and the total alone otherwise. *)
Theorem get_term_fees_spec (fees : list ClassTermFees.t) (self : Learner.t)
        (term : AcademicTerm.t) (cl : ClassLevel.t) (c a : nat) :
  unique_together fees ->
  Learner.class_level self = Some cl ->
  ClassLevel.pk cl = Some c ->
  AcademicTerm.pk term = Some a ->
  ((forall row, In row fees -> fee_key row <> (c, a)) ->
   Learner.get_term_fees fees self term = Ok None)
  /\ (forall (row : ClassTermFees.t) (adm s e : datetime.date),
         In row fees -> fee_key row = (c, a) ->
         Learner.admission_date self = Some adm ->
         AcademicTerm.start_date term = Some s ->
         AcademicTerm.end_date term = Some e ->
         Learner.is_admission_term self term
         = Ok (datetime.le s adm && datetime.le adm e)
         /\ (datetime.le s adm = true /\ datetime.le adm e = true ->
             Learner.get_term_fees fees self term
             = Ok (Some (ClassTermFees.get_total_fees row
                         + (ClassLevel.admission_fee cl
                            + ClassLevel.assessment_fee cl))))
         /\ (~ (datetime.le s adm = true /\ datetime.le adm e = true) ->
             Learner.get_term_fees fees self term
             = Ok (Some (ClassTermFees.get_total_fees row)))).
Proof.
  intros Hu Hcl Hc Ha. split.
  - intros Hnone.
    unfold Learner.get_term_fees, Learner.get_class_level, Learner.get_fees,
      objects_get.
    rewrite Hcl. cbn [rbind]. rewrite Hc, Ha.
    fold (fee_lookup c a). now rewrite (filter_none c a fees Hnone).
  - intros row adm s e Hin Hk Hadm Hs He.
    assert (Hterm : Learner.is_admission_term self term
                    = Ok (datetime.le s adm && datetime.le adm e)).
    { unfold Learner.is_admission_term. rewrite Hadm, Hs, He. cbn.
      destruct (datetime.le s adm); reflexivity. }
    split; [exact Hterm|].
    unfold Learner.get_term_fees, Learner.get_class_level, Learner.get_fees,
      objects_get.
    rewrite Hcl. cbn [rbind]. rewrite Hc, Ha.
    fold (fee_lookup c a). rewrite (filter_unique c a fees row Hu Hin Hk).
    cbn [rbind]. rewrite Hterm. cbn [rbind].
    split.
    + intros [-> ->]. reflexivity.
    + intros Hn.
      destruct (datetime.le s adm), (datetime.le adm e); cbn;
        try reflexivity.
      exfalso. apply Hn. split; reflexivity.
Qed.

Lemma sample_fees_unique : unique_together sample_fees.
Proof.
  unfold unique_together, sample_fees, fee_key. cbn.
  repeat constructor; cbn; intuition congruence.
Qed.

Lemma get_term_fees_spec_witness :
  Learner.get_term_fees sample_fees
    (new_learner (Some (datetime.mkdate 2025 1 20)) "25PP1001") term1
  = Ok (Some 2500000).
Proof.
  destruct (get_term_fees_spec sample_fees
              (new_learner (Some (datetime.mkdate 2025 1 20)) "25PP1001")
              term1 pp1 2 1 sample_fees_unique eq_refl eq_refl eq_refl)
    as [_ H].
  destruct (H (ClassTermFees.mk (Some 1%nat) 2 1 1500000 300000 50000)
              (datetime.mkdate 2025 1 20) (datetime.mkdate 2025 1 6)
              (datetime.mkdate 2025 4 4)
              (or_introl eq_refl) eq_refl eq_refl eq_refl eq_refl)
    as [_ [Hin _]].
  apply Hin. split; reflexivity.
Defined.

(** The three outcomes on the sample schedule: the admission term, a
    later term with a fee row, and a term without one. *)
Example term_fees_examples :
  let learner := new_learner (Some (datetime.mkdate 2025 1 20)) "25PP1001" in
  Learner.get_term_fees sample_fees learner term1 = Ok (Some (1850000 + 650000))
  /\ Learner.get_term_fees sample_fees learner term2 = Ok (Some 1800000)
  /\ Learner.get_term_fees sample_fees learner term3 = Ok None.
Proof. repeat split. Qed.

(** The two ends of the term belong to it. *)
Example admission_term_bounds :
  Learner.is_admission_term
    (new_learner (Some (datetime.mkdate 2025 1 6)) "25PP1001") term1 = Ok true
  /\ Learner.is_admission_term
       (new_learner (Some (datetime.mkdate 2025 4 4)) "25PP1001") term1 = Ok true
  /\ Learner.is_admission_term
       (new_learner (Some (datetime.mkdate 2025 4 5)) "25PP1001") term1 = Ok false
  /\ Learner.is_admission_term
       (new_learner (Some (datetime.mkdate 2025 1 5)) "25PP1001") term1 = Ok false.
Proof. repeat split. Qed.

(** ** Learner: the student identifier *)

Lemma truthy_empty (s : string) : Py.truthy s = false <-> s = "".
Proof. destruct s; cbn; split; congruence. Qed.

Lemma Learner_save_keep (today : datetime.date) (self : Learner.t)
      (tbl : list Learner.t) :
  Learner.student_id self <> "" ->
  Learner.save today (self, tbl) = Learner_write today (self, tbl).
Proof.
  intros H. unfold Learner.save, bind, get_self. cbn [fst snd].
  destruct (Py.truthy (Learner.student_id self)) eqn:E.
  - reflexivity.
  - apply truthy_empty in E. contradiction.
Qed.

Lemma Learner_save_generate (today d : datetime.date) (cl : ClassLevel.t)
      (self : Learner.t) (tbl : list Learner.t) :
  Learner.student_id self = "" ->
  Learner.admission_date self = Some d ->
  Learner.class_level self = Some cl ->
  Learner.save today (self, tbl)
  = Learner_write today
      (Learner.set_student_id
         (id_prefix d cl
          ++ Py.format_03d (Learner.count_startswith (id_prefix d cl) tbl + 1))
         self,
       tbl).
Proof.
  intros Hid Hd Hcl.
  unfold Learner.save, bind, get_self, lift, get_table, set_self, ret.
  cbn [fst snd]. rewrite Hid. cbn [Py.truthy negb].
  unfold Learner.hasattr_admission_date, Learner.admission_date_year,
    Learner.get_class_level, Learner.bool_of_instance.
  rewrite Hd, Hcl. cbn [rbind fst snd].
  unfold id_prefix, year_suffix, class_code.
  now rewrite append_assoc.
Qed.


(** For the years of four digits the year part is the last two digits. *)
Lemma year_suffix_four_digits (y : Z) :
  1000 <= y <= 9999 ->
  Py.slice_from 2 (Py.str y) = two_digits (y mod 100).
Proof.
  intros H.
  assert (Hall : forallb (fun k => year_suffix_ok (1000 + Z.of_nat k))
                   (seq 0 (Z.to_nat 9000)) = true) by (vm_compute; reflexivity).
  rewrite forallb_forall in Hall.
  specialize (Hall (Z.to_nat (y - 1000))).
  replace (1000 + Z.of_nat (Z.to_nat (y - 1000))) with y in Hall by lia.
  apply String.eqb_eq. apply Hall. apply in_seq. lia.
Qed.

Example year_suffix_examples :
  Py.slice_from 2 (Py.str 2025) = "25"
  /\ Py.slice_from 2 (Py.str 2007) = "07"
  /\ Py.slice_from 2 (Py.str 999) = "9".
Proof. repeat split. Qed.

(** Claim C2.  A learner saved without a student identifier and with no
    admission date yet does not get the current year as a fallback: the
    save raises [AttributeError], assigns nothing and writes nothing. *)
Theorem save_without_admission_date_raises
        (today : datetime.date) (self : Learner.t) (tbl : list Learner.t) :
  Learner.student_id self = "" ->
  Learner.admission_date self = None ->
  Learner.save today (self, tbl) = (Raise AttributeError, (self, tbl)).
Proof.
  intros Hid Hd.
  unfold Learner.save, bind, get_self, lift. cbn [fst snd].
  rewrite Hid. cbn [Py.truthy negb].
  unfold Learner.hasattr_admission_date, Learner.admission_date_year.
  now rewrite Hd.
Qed.

Lemma save_without_admission_date_raises_witness :
  Learner.save (datetime.mkdate 2025 1 6) (new_learner None "", [])
  = (Raise AttributeError, (new_learner None "", [])).
Proof.
  apply (save_without_admission_date_raises (datetime.mkdate 2025 1 6)
           (new_learner None "") []); reflexivity.
Defined.

(** With an admission date on the object, the same save assigns the
    identifier and inserts the row. *)
Example save_with_admission_date :
  Learner.save (datetime.mkdate 2025 1 6)
    (new_learner (Some (datetime.mkdate 2025 1 6)) "", [])
  = (Ok tt,
     (Learner.set_pk (Some 1%nat)
        (new_learner (Some (datetime.mkdate 2025 1 6)) "25PP1001"),
      [Learner.set_pk (Some 1%nat)
         (new_learner (Some (datetime.mkdate 2025 1 6)) "25PP1001")])).
Proof. reflexivity. Qed.

(** No class level on the object: the descriptor raises before the
    alternative ["STU"] can be chosen. *)
Lemma save_without_class_level_raises
      (today d : datetime.date) (self : Learner.t) (tbl : list Learner.t) :
  Learner.student_id self = "" ->
  Learner.admission_date self = Some d ->
  Learner.class_level self = None ->
  Learner.save today (self, tbl) = (Raise RelatedObjectDoesNotExist, (self, tbl)).
Proof.
  intros Hid Hd Hcl.
  unfold Learner.save, bind, get_self, lift. cbn [fst snd].
  rewrite Hid. cbn [Py.truthy negb].
  unfold Learner.hasattr_admission_date, Learner.admission_date_year,
    Learner.get_class_level.
  now rewrite Hd, Hcl.
Qed.

(** Claim C8.  A learner whose student identifier is not empty keeps it
    through a save, whatever else the object holds and whether the
    write succeeds or not; a save that succeeded has written it. *)
Theorem student_id_kept_on_save
        (today : datetime.date) (self : Learner.t) (tbl : list Learner.t) :
  Learner.student_id self <> "" ->
  let out := Learner.save today (self, tbl) in
  Learner.student_id (fst (snd out)) = Learner.student_id self
  /\ (fst out = Ok tt -> In (fst (snd out)) (snd (snd out))).
Proof.
  intros H. cbv zeta. rewrite (Learner_save_keep today self tbl H).
  unfold Learner_write. split.
  - apply (model_save_self Learner.pk Learner.set_pk Learner.conflicts
             (Learner.pre_insert today)
             (fun x => Learner.student_id x = Learner.student_id self));
      auto.
  - apply model_save_ok_in.
Qed.

Lemma student_id_kept_on_save_witness :
  let out :=
    Learner.save (datetime.mkdate 2025 3 3)
      (new_learner (Some (datetime.mkdate 2025 1 6)) "25PP1007", []) in
  Learner.student_id (fst (snd out)) = "25PP1007"
  /\ (fst out = Ok tt -> In (fst (snd out)) (snd (snd out))).
Proof.
  apply (student_id_kept_on_save (datetime.mkdate 2025 3 3)
           (new_learner (Some (datetime.mkdate 2025 1 6)) "25PP1007") []).
  discriminate.
Defined.

(** An existing row saved again with other fields changed keeps its
    identifier, also where a fresh count would give another one. *)
Example student_id_kept_on_update :
  let row := Learner.set_pk (Some 1%nat)
               (new_learner (Some (datetime.mkdate 2025 1 6)) "25PP1007") in
  let edited := Learner.mk (Some 1%nat) (Some pp1) "Amina" "Achieng" ""
                  (Some (datetime.mkdate 2020 6 15)) "female"
                  (Some (datetime.mkdate 2025 1 6)) "25PP1007" false in
  Learner.save (datetime.mkdate 2025 3 3) (edited, [row])
  = (Ok tt, (edited, [edited])).
Proof. reflexivity. Qed.

Lemma count_startswith_app (p : string) (t1 t2 : list Learner.t) :
  Learner.count_startswith p (t1 ++ t2)
  = Learner.count_startswith p t1 + Learner.count_startswith p t2.
Proof.
  unfold Learner.count_startswith.
  rewrite filter_app, length_app. lia.
Qed.

Lemma count_startswith_nonneg (p : string) (t : list Learner.t) :
  0 <= Learner.count_startswith p t.
Proof. unfold Learner.count_startswith. lia. Qed.

Lemma count_startswith_row (p : string) (row : Learner.t) (suffix : string) :
  Learner.student_id row = (p ++ suffix)%string ->
  Learner.count_startswith p [row] = 1.
Proof.
  intros H. unfold Learner.count_startswith, Py.startswith. cbn.
  now rewrite H, prefix_app.
Qed.

Lemma Learner_write_student_id (today : datetime.date) (self self' : Learner.t)
      (tbl tbl' : list Learner.t) (r : result unit) :
  Learner_write today (self, tbl) = (r, (self', tbl')) ->
  Learner.student_id self' = Learner.student_id self.
Proof.
  intros H.
  pose proof (model_save_self Learner.pk Learner.set_pk Learner.conflicts
                (Learner.pre_insert today)
                (fun x => Learner.student_id x = Learner.student_id self)
                self tbl) as HP.
  fold (Learner_write today) in HP. rewrite H in HP. cbn in HP.
  apply HP; auto.
Qed.

(** Claim C9.  Two learners saved one after the other without student
    identifier, the first one a new record, with admission dates of the
    same year and class levels of the same class code, both saves
    succeeding: the two identifiers differ, and they are the common
    prefix followed by two consecutive sequence numbers. *)
Theorem sequential_student_ids
        (today1 today2 d1 d2 : datetime.date) (c1 c2 : ClassLevel.t)
        (l1 l2 l1' l2' : Learner.t) (tbl tbl1 tbl2 : list Learner.t) :
  Learner.pk l1 = None ->
  Learner.student_id l1 = "" ->
  Learner.student_id l2 = "" ->
  Learner.admission_date l1 = Some d1 ->
  Learner.admission_date l2 = Some d2 ->
  datetime.year d1 = datetime.year d2 ->
  Learner.class_level l1 = Some c1 ->
  Learner.class_level l2 = Some c2 ->
  class_code c1 = class_code c2 ->
  Learner.save today1 (l1, tbl) = (Ok tt, (l1', tbl1)) ->
  Learner.save today2 (l2, tbl1) = (Ok tt, (l2', tbl2)) ->
  Learner.student_id l1' <> Learner.student_id l2'
  /\ exists n : Z,
      n = Learner.count_startswith (id_prefix d1 c1) tbl + 1
      /\ Learner.student_id l1' = (id_prefix d1 c1 ++ Py.format_03d n)%string
      /\ Learner.student_id l2' = (id_prefix d1 c1 ++ Py.format_03d (n + 1))%string.
Proof.
  intros Hpk Hid1 Hid2 Hd1 Hd2 Hy Hc1 Hc2 Hcode S1 S2.
  assert (Hp : id_prefix d2 c2 = id_prefix d1 c1).
  { unfold id_prefix, year_suffix. now rewrite Hy, Hcode. }
  rewrite (Learner_save_generate today1 d1 c1 l1 tbl Hid1 Hd1 Hc1) in S1.
  rewrite (Learner_save_generate today2 d2 c2 l2 tbl1 Hid2 Hd2 Hc2), Hp in S2.
  set (p := id_prefix d1 c1) in *.
  set (n := Learner.count_startswith p tbl + 1) in *.
  pose proof (Learner_write_student_id _ _ _ _ _ _ S1) as E1.
  unfold Learner.set_student_id in E1; cbn [Learner.student_id] in E1.
  pose proof (Learner_write_student_id _ _ _ _ _ _ S2) as E2.
  unfold Learner.set_student_id in E2; cbn [Learner.student_id] in E2.
  apply (model_save_insert Learner.pk Learner.set_pk Learner.conflicts
           (Learner.pre_insert today1)) in S1; [|exact Hpk].
  destruct S1 as [Ht1 _].
  assert (Hn : Learner.count_startswith p tbl1 + 1 = n + 1).
  { rewrite Ht1, count_startswith_app,
      (count_startswith_row p l1' (Py.format_03d n) E1). reflexivity. }
  rewrite Hn in E2.
  pose proof (count_startswith_nonneg p tbl) as Hc.
  split.
  - rewrite E1, E2. intros E. apply append_inj_l in E.
    apply format_03d_inj in E; lia.
  - exists n. repeat split; assumption.
Qed.

Lemma sequential_student_ids_witness :
  let l1' := Learner.set_pk (Some 1%nat)
               (new_learner (Some (datetime.mkdate 2025 1 6)) "25PP1001") in
  let l2' := Learner.set_pk (Some 2%nat)
               (new_learner (Some (datetime.mkdate 2025 2 3)) "25PP1002") in
  Learner.student_id l1' <> Learner.student_id l2'
  /\ exists n : Z,
      n = Learner.count_startswith
            (id_prefix (datetime.mkdate 2025 1 6) pp1) [] + 1
      /\ Learner.student_id l1'
         = (id_prefix (datetime.mkdate 2025 1 6) pp1 ++ Py.format_03d n)%string
      /\ Learner.student_id l2'
         = (id_prefix (datetime.mkdate 2025 1 6) pp1 ++ Py.format_03d (n + 1))%string.
Proof.
  apply (sequential_student_ids
           (datetime.mkdate 2025 1 6) (datetime.mkdate 2025 2 3)
           (datetime.mkdate 2025 1 6) (datetime.mkdate 2025 2 3) pp1 pp1
           (new_learner (Some (datetime.mkdate 2025 1 6)) "")
           (new_learner (Some (datetime.mkdate 2025 2 3)) "")
           (Learner.set_pk (Some 1%nat)
              (new_learner (Some (datetime.mkdate 2025 1 6)) "25PP1001"))
           (Learner.set_pk (Some 2%nat)
              (new_learner (Some (datetime.mkdate 2025 2 3)) "25PP1002"))
           []
           [Learner.set_pk (Some 1%nat)
              (new_learner (Some (datetime.mkdate 2025 1 6)) "25PP1001")]
           [Learner.set_pk (Some 1%nat)
              (new_learner (Some (datetime.mkdate 2025 1 6)) "25PP1001");
            Learner.set_pk (Some 2%nat)
              (new_learner (Some (datetime.mkdate 2025 2 3)) "25PP1002")]);
    reflexivity.
Defined.

(** Three admissions to PP1 in 2025, one after the other, and one to the
    beginner class in between: each class code counts on its own. *)
Example sequential_admissions :
  let enrol (d : datetime.date) (cl : ClassLevel.t) (tbl : list Learner.t) :=
    snd (snd (Learner.save d
                (Learner.mk None (Some cl) "Amina" "Otieno" ""
                   (Some (datetime.mkdate 2020 6 15)) "female" (Some d) "" true,
                 tbl))) in
  let beginner := ClassLevel.mk (Some 1%nat) "beginner" "" (Some 1) None 0 0 in
  map Learner.student_id
    (enrol (datetime.mkdate 2025 2 10) pp1
       (enrol (datetime.mkdate 2025 2 3) beginner
          (enrol (datetime.mkdate 2025 1 20) pp1
             (enrol (datetime.mkdate 2025 1 6) pp1 []))))
  = ["25PP1001"; "25PP1002"; "25BEG001"; "25PP1003"].
Proof. reflexivity. Qed.

(** ** AcademicTerm: what the validation accepts *)

Lemma clean_ok_cases (self : AcademicTerm.t) :
  AcademicTerm.clean self = Ok tt
  <-> (AcademicTerm.start_date self = None
       \/ AcademicTerm.end_date self = None
       \/ exists s e,
           AcademicTerm.start_date self = Some s
           /\ AcademicTerm.end_date self = Some e
           /\ datetime.lt s e = true
           /\ 60 <= datetime.sub_days e s <= 120).
Proof.
  unfold AcademicTerm.clean.
  destruct (AcademicTerm.start_date self) as [s|];
    [destruct (AcademicTerm.end_date self) as [e|]|].
  - unfold datetime.le.
    destruct (datetime.lt s e) eqn:L; cbn [negb].
    + rewrite Z.gtb_ltb.
      destruct (Z.ltb_spec (datetime.sub_days e s) 60) as [Hlo|Hlo];
        [|destruct (Z.ltb_spec 120 (datetime.sub_days e s)) as [Hhi|Hhi]].
      * split; [discriminate|].
        intros [H|[H|(s' & e' & Hs & He & _ & Hd)]]; try discriminate.
        injection Hs as <-. injection He as <-. lia.
      * split; [discriminate|].
        intros [H|[H|(s' & e' & Hs & He & _ & Hd)]]; try discriminate.
        injection Hs as <-. injection He as <-. lia.
      * split; [|reflexivity]. intros _. right. right.
        exists s, e. repeat split; auto; lia.
    + split; [discriminate|].
      intros [H|[H|(s' & e' & Hs & He & Hlt & _)]]; try discriminate.
      injection Hs as <-. injection He as <-. congruence.
  - split; [|reflexivity]. intros _. right. now left.
  - split; [|reflexivity]. intros _. now left.
Qed.

(** Property X1.  The validation accepts a term exactly when a date is missing or
    the end date is after the start date with 60 to 120 days between. *)
Theorem clean_accepts_iff (self : AcademicTerm.t) :
  AcademicTerm.clean self = Ok tt
  <-> (AcademicTerm.start_date self = None
       \/ AcademicTerm.end_date self = None
       \/ exists s e,
           AcademicTerm.start_date self = Some s
           /\ AcademicTerm.end_date self = Some e
           /\ datetime.lt s e = true
           /\ 60 <= datetime.sub_days e s <= 120).
Proof. apply clean_ok_cases. Qed.

Lemma clean_ok_valid_dates (self : AcademicTerm.t) (s e : datetime.date) :
  datetime.valid s = true -> datetime.valid e = true ->
  AcademicTerm.start_date self = Some s ->
  AcademicTerm.end_date self = Some e ->
  (AcademicTerm.clean self = Ok tt <-> 60 <= datetime.sub_days e s <= 120).
Proof.
  intros Vs Ve Hs He. rewrite clean_ok_cases, Hs, He. split.
  - intros [H|[H|(s' & e' & Hs' & He' & _ & Hd)]]; try discriminate.
    injection Hs' as <-. injection He' as <-. exact Hd.
  - intros Hd. right. right. exists s, e. repeat split; auto; try lia.
    destruct (datetime.lt s e) eqn:L; [reflexivity|].
    assert (Hle : datetime.le e s = true) by (unfold datetime.le; now rewrite L).
    pose proof (toordinal_le e s Ve Vs Hle).
    unfold datetime.sub_days in Hd. lia.
Qed.

(** Property X2.  For dates of the calendar the duration test alone decides: the
    order test never rejects a term that the duration test would pass. *)
Theorem clean_valid_dates_iff (self : AcademicTerm.t) (s e : datetime.date) :
  datetime.valid s = true -> datetime.valid e = true ->
  AcademicTerm.start_date self = Some s ->
  AcademicTerm.end_date self = Some e ->
  (AcademicTerm.clean self = Ok tt <-> 60 <= datetime.sub_days e s <= 120).
Proof. intros. now apply clean_ok_valid_dates. Qed.

Lemma clean_valid_dates_iff_witness :
  AcademicTerm.clean
    (term_2025 (datetime.mkdate 2025 1 6) (datetime.mkdate 2025 4 4)) = Ok tt
  <-> 60 <= datetime.sub_days (datetime.mkdate 2025 4 4) (datetime.mkdate 2025 1 6)
      <= 120.
Proof.
  apply (clean_valid_dates_iff
           (term_2025 (datetime.mkdate 2025 1 6) (datetime.mkdate 2025 4 4))
           (datetime.mkdate 2025 1 6) (datetime.mkdate 2025 4 4));
    reflexivity.
Defined.

Lemma clean_set_pk (k : option nat) (self : AcademicTerm.t) :
  AcademicTerm.clean (AcademicTerm.set_pk k self) = AcademicTerm.clean self.
Proof. reflexivity. Qed.

Section ModelSaveForall.

Context {A : Type}.
Variable get_pk : A -> option nat.
Variable set_pk : option nat -> A -> A.
Variable conflicts : A -> A -> bool.
Variable pre_insert : A -> A.
Variable P : A -> Prop.
Hypothesis P_set_pk : forall k x, P x -> P (set_pk k x).
Hypothesis P_pre_insert : forall x, P x -> P (pre_insert x).

Lemma replace_row_forall (k : nat) (obj : A) (t : list A) :
  P obj -> Forall P t -> Forall P (replace_row get_pk k obj t).
Proof.
  intros Ho Ht. induction Ht as [|r t Hr Ht IH]; cbn; [constructor|].
  destruct (has_pk get_pk k r); constructor; auto.
Qed.

(** A property of rows that holds of the object and of every row of the
    table holds of every row after the write, whatever its outcome. *)
Lemma model_save_forall (self : A) (t : list A) :
  P self -> Forall P t ->
  Forall P (snd (snd (model_save get_pk set_pk conflicts pre_insert (self, t)))).
Proof.
  intros Hs Ht. unfold model_save, update_row, insert_row.
  destruct (get_pk self) as [k|].
  - destruct (existsb (has_pk get_pk k) t).
    + destruct (existsb (conflicts self) (others get_pk k t)); cbn; auto.
      now apply replace_row_forall.
    + destruct (existsb (conflicts (pre_insert self)) t); cbn; auto.
      apply Forall_app. split; auto.
  - destruct (existsb (conflicts (pre_insert self)) t); cbn; auto.
    apply Forall_app. split; auto.
Qed.

End ModelSaveForall.

(** Property X3.  Saving never brings a term that fails the validation into the
    table: if every row passes [clean], so does every row afterwards. *)
Theorem save_keeps_terms_clean (self : AcademicTerm.t) (tbl : list AcademicTerm.t) :
  Forall (fun row => AcademicTerm.clean row = Ok tt) tbl ->
  Forall (fun row => AcademicTerm.clean row = Ok tt)
         (snd (snd (AcademicTerm.save (self, tbl)))).
Proof.
  intros H. rewrite AcademicTerm_save_unfold.
  destruct (AcademicTerm.clean self) as [[]|e] eqn:C; [|exact H].
  unfold AcademicTerm_write.
  apply (model_save_forall AcademicTerm.pk AcademicTerm.set_pk
           AcademicTerm.conflicts (fun row => row)
           (fun row => AcademicTerm.clean row = Ok tt)); auto.
Qed.

Lemma save_keeps_terms_clean_witness :
  Forall (fun row => AcademicTerm.clean row = Ok tt)
         (snd (snd (AcademicTerm.save
                      (term_2025 (datetime.mkdate 2025 1 6) (datetime.mkdate 2025 1 7),
                       [term1; term2])))).
Proof.
  apply (save_keeps_terms_clean
           (term_2025 (datetime.mkdate 2025 1 6) (datetime.mkdate 2025 1 7))
           [term1; term2]).
  repeat constructor.
Defined.

(** ** AcademicTerm: the active term; ClassLevel: the progression *)

Lemma is_active_value (self : AcademicTerm.t) (today s e : datetime.date) :
  AcademicTerm.start_date self = Some s ->
  AcademicTerm.end_date self = Some e ->
  AcademicTerm.is_active today self
  = Ok (datetime.le s today && datetime.le today e).
Proof.
  intros Hs He.
  unfold AcademicTerm.is_active, AcademicTerm.get_term_status.
  rewrite Hs, He. cbn. unfold datetime.le, datetime.gt.
  destruct (datetime.lt today s); cbn; [reflexivity|].
  destruct (datetime.lt e today); reflexivity.
Qed.

(** Property X4.  [is_active] holds exactly from the start date to the end date, both
    included. *)
Theorem is_active_iff (self : AcademicTerm.t) (today s e : datetime.date) :
  AcademicTerm.start_date self = Some s ->
  AcademicTerm.end_date self = Some e ->
  AcademicTerm.is_active today self
  = Ok (datetime.le s today && datetime.le today e).
Proof. intros. now apply is_active_value. Qed.

Lemma is_active_iff_witness :
  AcademicTerm.is_active (datetime.mkdate 2025 4 4) term1 = Ok true.
Proof.
  apply (is_active_iff term1 (datetime.mkdate 2025 4 4)
           (datetime.mkdate 2025 1 6) (datetime.mkdate 2025 4 4));
    reflexivity.
Defined.

(** Property X5.  While a term is active the days remaining are a number between 0
    and the length of the term, so at most 120 for a term that passes
    the validation. *)
Theorem active_term_days_remaining
        (self : AcademicTerm.t) (today s e : datetime.date) :
  datetime.valid today = true -> datetime.valid s = true ->
  datetime.valid e = true ->
  AcademicTerm.start_date self = Some s ->
  AcademicTerm.end_date self = Some e ->
  AcademicTerm.is_active today self = Ok true ->
  exists n,
    AcademicTerm.days_remaining today self = Ok (Some n)
    /\ 0 <= n <= datetime.sub_days e s
    /\ (AcademicTerm.clean self = Ok tt -> n <= 120).
Proof.
  intros Vt Vs Ve Hs He Ha.
  rewrite (is_active_value self today s e Hs He) in Ha.
  injection Ha as Ha. apply andb_true_iff in Ha as [H1 H2].
  pose proof (toordinal_le s today Vs Vt H1) as O1.
  pose proof (toordinal_le today e Vt Ve H2) as O2.
  exists (datetime.sub_days e today).
  split; [|split].
  - unfold AcademicTerm.days_remaining. rewrite He. cbn.
    unfold datetime.le in H2. unfold datetime.gt.
    apply negb_true_iff in H2. now rewrite H2.
  - unfold datetime.sub_days. lia.
  - intros C.
    apply (clean_ok_valid_dates self s e Vs Ve Hs He) in C.
    unfold datetime.sub_days in *. lia.
Qed.

Lemma active_term_days_remaining_witness :
  exists n,
    AcademicTerm.days_remaining (datetime.mkdate 2025 2 14) term1 = Ok (Some n)
    /\ 0 <= n <= datetime.sub_days (datetime.mkdate 2025 4 4) (datetime.mkdate 2025 1 6)
    /\ (AcademicTerm.clean term1 = Ok tt -> n <= 120).
Proof.
  apply (active_term_days_remaining term1 (datetime.mkdate 2025 2 14)
           (datetime.mkdate 2025 1 6) (datetime.mkdate 2025 4 4));
    reflexivity.
Defined.

(** Property X6.  On its end date a term is still active, with zero days remaining. *)
Theorem last_day_of_term (self : AcademicTerm.t) (s e : datetime.date) :
  AcademicTerm.start_date self = Some s ->
  AcademicTerm.end_date self = Some e ->
  datetime.le s e = true ->
  AcademicTerm.get_term_status e self = Ok "active"
  /\ AcademicTerm.days_remaining e self = Ok (Some 0).
Proof.
  intros Hs He Hle.
  assert (Hee : datetime.lt e e = false).
  { destruct (datetime.lt e e) eqn:E; [|reflexivity].
    apply datetime_lt_spec in E. lia. }
  unfold AcademicTerm.get_term_status, AcademicTerm.days_remaining.
  rewrite Hs, He. cbn. unfold datetime.gt. rewrite Hee.
  unfold datetime.le in Hle. apply negb_true_iff in Hle. rewrite Hle.
  split; [reflexivity|]. unfold datetime.sub_days. do 2 f_equal. lia.
Qed.

Lemma last_day_of_term_witness :
  AcademicTerm.get_term_status (datetime.mkdate 2025 4 4) term1 = Ok "active"
  /\ AcademicTerm.days_remaining (datetime.mkdate 2025 4 4) term1 = Ok (Some 0).
Proof.
  apply (last_day_of_term term1 (datetime.mkdate 2025 1 6)
           (datetime.mkdate 2025 4 4)); reflexivity.
Defined.

(** *** Order of the class levels *)

Lemma class_order_of_save (self : ClassLevel.t) (tbl : list ClassLevel.t) :
  (forall i : nat,
      nth_error (map fst ClassLevel.MODEL_CHOICES) i = Some (ClassLevel.name self) ->
      ClassLevel.class_order (fst (snd (ClassLevel.save (self, tbl))))
      = Some (Z.of_nat i + 1))
  /\ (~ In (ClassLevel.name self) (map fst ClassLevel.MODEL_CHOICES) ->
      ClassLevel.class_order (fst (snd (ClassLevel.save (self, tbl))))
      = Some 999).
Proof.
  destruct (ClassLevel_save_unfold self tbl) as [v [Hv ->]].
  assert (Hord : ClassLevel.class_order
                   (fst (snd (model_save ClassLevel.pk ClassLevel.set_pk
                                ClassLevel.conflicts (fun row => row)
                                (ClassLevel.set_class_order v self, tbl))))
                 = Some v).
  { apply (model_save_self ClassLevel.pk ClassLevel.set_pk ClassLevel.conflicts
             (fun row => row) (fun x => ClassLevel.class_order x = Some v));
      auto. }
  split.
  - intros i Hi. rewrite Hord.
    rewrite (index_nth _ _ i choice_values_nodup Hi) in Hv. now subst.
  - intros Hn. rewrite Hord. rewrite (index_absent _ _ Hn) in Hv. now subst.
Qed.

(** Property X7.  The saved order follows the progression: a level that comes earlier
    in the enumeration gets the smaller order, and every level of the
    enumeration comes before every name outside of it. *)
Theorem class_order_follows_progression
        (a b : ClassLevel.t) (ta tb : list ClassLevel.t) (i : nat) :
  nth_error (map fst ClassLevel.MODEL_CHOICES) i = Some (ClassLevel.name a) ->
  (exists j : nat,
      (i < j)%nat
      /\ nth_error (map fst ClassLevel.MODEL_CHOICES) j = Some (ClassLevel.name b))
  \/ ~ In (ClassLevel.name b) (map fst ClassLevel.MODEL_CHOICES) ->
  exists oa ob,
    ClassLevel.class_order (fst (snd (ClassLevel.save (a, ta)))) = Some oa
    /\ ClassLevel.class_order (fst (snd (ClassLevel.save (b, tb)))) = Some ob
    /\ 1 <= oa < ob.
Proof.
  intros Hi Hb.
  destruct (class_order_of_save a ta) as [Ha _].
  destruct (class_order_of_save b tb) as [Hb1 Hb2].
  assert (Hlen : (i < List.length (map fst ClassLevel.MODEL_CHOICES))%nat).
  { apply nth_error_Some. rewrite Hi. discriminate. }
  cbn in Hlen.
  destruct Hb as [(j & Hij & Hj) | Hn].
  - exists (Z.of_nat i + 1), (Z.of_nat j + 1).
    repeat split; auto; lia.
  - exists (Z.of_nat i + 1), 999.
    repeat split; auto; lia.
Qed.

Lemma class_order_follows_progression_witness :
  exists oa ob,
    ClassLevel.class_order
      (fst (snd (ClassLevel.save
                   (ClassLevel.mk None "pp2" "" None None 0 0, []))))
    = Some oa
    /\ ClassLevel.class_order
         (fst (snd (ClassLevel.save
                      (ClassLevel.mk None "grade2" "" None None 0 0, []))))
       = Some ob
    /\ 1 <= oa < ob.
Proof.
  apply (class_order_follows_progression
           (ClassLevel.mk None "pp2" "" None None 0 0)
           (ClassLevel.mk None "grade2" "" None None 0 0) [] [] 2).
  - reflexivity.
  - left. exists 4%nat. split; [lia | reflexivity].
Defined.

(** ** Learner: saving twice *)

Section ModelSaveAgain.

Context {A : Type}.
Variable get_pk : A -> option nat.
Variable set_pk : option nat -> A -> A.
Variable conflicts : A -> A -> bool.
Variable pre_insert pre_insert' : A -> A.
Hypothesis get_set_pk : forall k x, get_pk (set_pk k x) = k.
Hypothesis get_pk_pre_insert : forall x, get_pk (pre_insert x) = get_pk x.
Hypothesis conflicts_set_pk :
  forall k x y, conflicts (set_pk k x) y = conflicts x y.

Lemma fresh_pk_above (t : list A) (r : A) (k : nat) :
  In r t -> get_pk r = Some k -> (k < fresh_pk get_pk t)%nat.
Proof.
  unfold fresh_pk. induction t as [|x t IH]; intros Hin Hk; [contradiction|].
  cbn. destruct Hin as [-> | Hin].
  - rewrite Hk. lia.
  - specialize (IH Hin Hk). lia.
Qed.

Lemma fresh_pk_unused (t : list A) :
  forallb (fun r => negb (has_pk get_pk (fresh_pk get_pk t) r)) t = true.
Proof.
  apply forallb_forall. intros r Hin. unfold has_pk.
  destruct (get_pk r) as [k|] eqn:E; [|reflexivity].
  pose proof (fresh_pk_above t r k Hin E).
  destruct (Nat.eqb_spec (fresh_pk get_pk t) k); [lia | reflexivity].
Qed.

Lemma others_unused (k : nat) (t : list A) :
  forallb (fun r => negb (has_pk get_pk k r)) t = true ->
  others get_pk k t = t /\ forall obj, replace_row get_pk k obj t = t.
Proof.
  unfold others. induction t as [|r t IH]; cbn; [auto|].
  intros H. apply andb_true_iff in H as [Hr Ht].
  destruct (IH Ht) as [IH1 IH2].
  apply negb_true_iff in Hr. rewrite Hr. cbn. split.
  - now rewrite IH1.
  - intros obj. now rewrite IH2.
Qed.

Lemma others_app (k : nat) (t1 t2 : list A) :
  others get_pk k (t1 ++ t2) = (others get_pk k t1 ++ others get_pk k t2)%list.
Proof. unfold others. apply filter_app. Qed.

Lemma replace_row_app (k : nat) (obj : A) (t1 t2 : list A) :
  replace_row get_pk k obj (t1 ++ t2)
  = (replace_row get_pk k obj t1 ++ replace_row get_pk k obj t2)%list.
Proof.
  induction t1 as [|r t1 IH]; cbn; [reflexivity|].
  destruct (has_pk get_pk k r); cbn; now rewrite IH.
Qed.

Lemma existsb_conflicts_set_pk (k : option nat) (x : A) (t : list A) :
  existsb (conflicts (set_pk k x)) t = existsb (conflicts x) t.
Proof.
  induction t as [|y t IH]; cbn; [reflexivity|].
  now rewrite conflicts_set_pk, IH.
Qed.

(** The object that a successful insertion returns can be written again
    at once: the second write succeeds and changes nothing. *)
Lemma model_save_again (self self' : A) (t t' : list A) :
  get_pk self = None ->
  model_save get_pk set_pk conflicts pre_insert (self, t) = (Ok tt, (self', t')) ->
  model_save get_pk set_pk conflicts pre_insert' (self', t') = (Ok tt, (self', t')).
Proof.
  intros Hpk. unfold model_save at 1. unfold insert_row. rewrite Hpk.
  rewrite get_pk_pre_insert, Hpk.
  destruct (existsb (conflicts (pre_insert self)) t) eqn:C; [discriminate|].
  intros H. injection H as <- <-.
  set (k := fresh_pk get_pk t).
  set (row := set_pk (Some k) (pre_insert self)).
  assert (Hrow : has_pk get_pk k row = true).
  { unfold has_pk, row. rewrite get_set_pk. apply Nat.eqb_refl. }
  destruct (others_unused k t (fresh_pk_unused t)) as [Ho Hr].
  unfold model_save, update_row. unfold row at 1. rewrite get_set_pk.
  rewrite existsb_app. cbn [existsb]. rewrite Hrow. cbn [orb]. rewrite orb_true_r.
  rewrite others_app, Ho. unfold others at 1. cbn [filter].
  rewrite Hrow. cbn [negb]. rewrite app_nil_r.
  replace (existsb (conflicts row) t) with false.
  - rewrite replace_row_app, Hr. cbn [replace_row]. now rewrite Hrow.
  - symmetry. rewrite <- C. unfold row. apply existsb_conflicts_set_pk.
Qed.

End ModelSaveAgain.

Lemma string_length_append (a b : string) :
  String.length (a ++ b) = (String.length a + String.length b)%nat.
Proof. induction a as [|c a IH]; cbn; [reflexivity | now rewrite IH]. Qed.

Lemma zeros_length (k : nat) : String.length (Py.zeros k) = k.
Proof. induction k as [|k IH]; cbn; [reflexivity | now rewrite IH]. Qed.

(** [f"{n:03d}"] has three characters at least. *)
Lemma format_03d_length (n : Z) : (3 <= String.length (Py.format_03d n))%nat.
Proof.
  unfold Py.format_03d. rewrite !string_length_append, zeros_length. lia.
Qed.

Lemma generated_id_nonempty (p : string) (n : Z) :
  (p ++ Py.format_03d n)%string <> "".
Proof.
  intros E. apply (f_equal String.length) in E.
  rewrite string_length_append in E. cbn in E.
  pose proof (format_03d_length n). lia.
Qed.

(** What [Learner.save] does before it writes, in all cases. *)
Lemma Learner_save_cases (today : datetime.date) (self : Learner.t)
      (tbl : list Learner.t) :
  (Learner.student_id self <> ""
   /\ Learner.save today (self, tbl) = Learner_write today (self, tbl))
  \/ (Learner.student_id self = ""
      /\ ((Learner.admission_date self = None
           /\ Learner.save today (self, tbl) = (Raise AttributeError, (self, tbl)))
          \/ (exists d, Learner.admission_date self = Some d
              /\ Learner.class_level self = None
              /\ Learner.save today (self, tbl)
                 = (Raise RelatedObjectDoesNotExist, (self, tbl)))
          \/ (exists d cl,
                 Learner.admission_date self = Some d
                 /\ Learner.class_level self = Some cl
                 /\ Learner.save today (self, tbl)
                    = Learner_write today
                        (Learner.set_student_id
                           (id_prefix d cl
                            ++ Py.format_03d
                                 (Learner.count_startswith (id_prefix d cl) tbl + 1))
                           self, tbl)))).
Proof.
  destruct (string_dec (Learner.student_id self) "") as [E|N].
  - right. split; [exact E|].
    destruct (Learner.admission_date self) as [d|] eqn:Hd.
    + destruct (Learner.class_level self) as [cl|] eqn:Hc.
      * right. right. exists d, cl. repeat split.
        now apply Learner_save_generate.
      * right. left. exists d. repeat split.
        now apply (save_without_class_level_raises today d).
    + left. split; [reflexivity|].
      unfold Learner.save, bind, get_self, lift. cbn [fst snd].
      rewrite E. cbn [Py.truthy negb].
      unfold Learner.hasattr_admission_date, Learner.admission_date_year.
      now rewrite Hd.
  - left. split; [exact N|]. now apply Learner_save_keep.
Qed.

Lemma saved_student_id_nonempty
        (today : datetime.date) (self self' : Learner.t)
        (tbl tbl' : list Learner.t) :
  Learner.save today (self, tbl) = (Ok tt, (self', tbl')) ->
  Learner.student_id self' <> "".
Proof.
  intros S.
  destruct (Learner_save_cases today self tbl)
    as [[N E] | [B [[_ E] | [(d & _ & _ & E) | (d & cl & _ & _ & E)]]]];
    rewrite E in S; try discriminate.
  - apply Learner_write_student_id in S. now rewrite S.
  - apply Learner_write_student_id in S. rewrite S.
    unfold Learner.set_student_id; cbn [Learner.student_id].
    apply generated_id_nonempty.
Qed.

(** Property X8.  A save that succeeded leaves a student identifier on the object, so
    the generation never runs twice for one record. *)
Theorem saved_learner_has_student_id
        (today : datetime.date) (self self' : Learner.t)
        (tbl tbl' : list Learner.t) :
  Learner.save today (self, tbl) = (Ok tt, (self', tbl')) ->
  Learner.student_id self' <> "".
Proof. intros. eapply saved_student_id_nonempty; eassumption. Qed.

Lemma saved_learner_has_student_id_witness :
  Learner.student_id
    (Learner.set_pk (Some 1%nat)
       (new_learner (Some (datetime.mkdate 2025 1 6)) "25PP1001")) <> "".
Proof.
  apply (saved_learner_has_student_id (datetime.mkdate 2025 1 6)
           (new_learner (Some (datetime.mkdate 2025 1 6)) "")
           (Learner.set_pk (Some 1%nat)
              (new_learner (Some (datetime.mkdate 2025 1 6)) "25PP1001"))
           []
           [Learner.set_pk (Some 1%nat)
              (new_learner (Some (datetime.mkdate 2025 1 6)) "25PP1001")]).
  reflexivity.
Defined.

(** Property X9.  A new learner that was saved can be saved again on any later day:
    the save succeeds and changes neither the object, its identifier
    included, nor the table. *)
Theorem save_again_changes_nothing
        (today today' : datetime.date) (self self' : Learner.t)
        (tbl tbl' : list Learner.t) :
  Learner.pk self = None ->
  Learner.save today (self, tbl) = (Ok tt, (self', tbl')) ->
  Learner.save today' (self', tbl') = (Ok tt, (self', tbl')).
Proof.
  intros Hpk S.
  pose proof (saved_student_id_nonempty _ _ _ _ _ S) as Hid.
  rewrite (Learner_save_keep today' self' tbl' Hid).
  destruct (Learner_save_cases today self tbl)
    as [[N E] | [B [[_ E] | [(d & _ & _ & E) | (d & cl & _ & _ & E)]]]];
    rewrite E in S; try discriminate;
    unfold Learner_write in *;
    eapply (model_save_again Learner.pk Learner.set_pk Learner.conflicts
              (Learner.pre_insert today) (Learner.pre_insert today'));
    try exact S; auto.
Qed.

Lemma save_again_changes_nothing_witness :
  let row := Learner.set_pk (Some 1%nat)
               (new_learner (Some (datetime.mkdate 2025 1 6)) "25PP1001") in
  Learner.save (datetime.mkdate 2026 3 3) (row, [row]) = (Ok tt, (row, [row])).
Proof.
  apply (save_again_changes_nothing (datetime.mkdate 2025 1 6)
           (datetime.mkdate 2026 3 3)
           (new_learner (Some (datetime.mkdate 2025 1 6)) "")
           _ [] _); reflexivity.
Defined.

(** ** Learner: dates, counts and codes in the identifier *)

(** Property X10.  On creation the admission date that is stored is the current date,
    whatever the object held, while the year in a generated identifier
    is the one of the date that the object held before the save. *)
Theorem creation_dates (today d : datetime.date) (cl : ClassLevel.t)
        (self self' : Learner.t) (tbl tbl' : list Learner.t) :
  Learner.pk self = None ->
  Learner.student_id self = "" ->
  Learner.admission_date self = Some d ->
  Learner.class_level self = Some cl ->
  Learner.save today (self, tbl) = (Ok tt, (self', tbl')) ->
  Learner.admission_date self' = Some today
  /\ Py.startswith (Learner.student_id self') (year_suffix d) = true
  /\ tbl' = (tbl ++ [self'])%list.
Proof.
  intros Hpk Hid Hd Hcl S.
  rewrite (Learner_save_generate today d cl self tbl Hid Hd Hcl) in S.
  pose proof (Learner_write_student_id _ _ _ _ _ _ S) as E.
  unfold Learner.set_student_id in E; cbn [Learner.student_id] in E.
  apply (model_save_insert Learner.pk Learner.set_pk Learner.conflicts
           (Learner.pre_insert today)) in S; [|exact Hpk].
  destruct S as [Ht Hs]. repeat split.
  - rewrite Hs. reflexivity.
  - rewrite E. unfold id_prefix, Py.startswith.
    rewrite append_assoc. apply prefix_app.
  - exact Ht.
Qed.

Lemma creation_dates_witness :
  let self' := Learner.set_pk (Some 1%nat)
                 (new_learner (Some (datetime.mkdate 2025 1 6)) "24PP1001") in
  Learner.admission_date self' = Some (datetime.mkdate 2025 1 6)
  /\ Py.startswith (Learner.student_id self')
       (year_suffix (datetime.mkdate 2024 12 30)) = true
  /\ [self'] = ([] ++ [self'])%list.
Proof.
  apply (creation_dates (datetime.mkdate 2025 1 6) (datetime.mkdate 2024 12 30)
           pp1 (new_learner (Some (datetime.mkdate 2024 12 30)) "") _ [] _);
    reflexivity.
Defined.

(** Property X11.  The sequence number is a count, not a maximum: when a row already
    carries the identifier that the count leads to, the creation is
    refused with [IntegrityError] and the table stays as it was. *)
Theorem counted_id_taken (today d : datetime.date) (cl : ClassLevel.t)
        (self row : Learner.t) (tbl : list Learner.t) :
  Learner.pk self = None ->
  Learner.student_id self = "" ->
  Learner.admission_date self = Some d ->
  Learner.class_level self = Some cl ->
  In row tbl ->
  Learner.student_id row
  = (id_prefix d cl
     ++ Py.format_03d (Learner.count_startswith (id_prefix d cl) tbl + 1))%string ->
  fst (Learner.save today (self, tbl)) = Raise IntegrityError
  /\ snd (snd (Learner.save today (self, tbl))) = tbl.
Proof.
  intros Hpk Hid Hd Hcl Hin Hrow.
  rewrite (Learner_save_generate today d cl self tbl Hid Hd Hcl).
  unfold Learner_write, model_save, insert_row.
  cbn [Learner.pk Learner.set_student_id]. rewrite Hpk.
  match goal with
  | |- context [existsb ?f tbl] =>
      assert (Hex : existsb f tbl = true)
  end.
  { apply existsb_exists. exists row. split; [exact Hin|].
    unfold Learner.conflicts, Learner.pre_insert, Learner.set_admission_date.
    cbn [Learner.student_id]. rewrite Hrow. apply String.eqb_refl. }
  rewrite Hex. split; reflexivity.
Qed.

Lemma counted_id_taken_witness :
  let tbl := [Learner.set_pk (Some 2%nat)
                (new_learner (Some (datetime.mkdate 2025 1 20)) "25PP1002")] in
  fst (Learner.save (datetime.mkdate 2025 2 3)
         (new_learner (Some (datetime.mkdate 2025 2 3)) "", tbl))
  = Raise IntegrityError
  /\ snd (snd (Learner.save (datetime.mkdate 2025 2 3)
                 (new_learner (Some (datetime.mkdate 2025 2 3)) "", tbl)))
     = tbl.
Proof.
  apply (counted_id_taken (datetime.mkdate 2025 2 3) (datetime.mkdate 2025 2 3)
           pp1 (new_learner (Some (datetime.mkdate 2025 2 3)) "")
           (Learner.set_pk (Some 2%nat)
              (new_learner (Some (datetime.mkdate 2025 1 20)) "25PP1002")));
    try reflexivity.
  now left.
Defined.

(** Property X12.  Among the class levels of the enumeration the class code tells the
    level, except that grade 1 and grade 2 share the code [GRA] and so
    share one sequence of numbers. *)
Theorem class_codes_of_enumeration (a b : ClassLevel.t) :
  In (ClassLevel.name a) (map fst ClassLevel.MODEL_CHOICES) ->
  In (ClassLevel.name b) (map fst ClassLevel.MODEL_CHOICES) ->
  (class_code a = class_code b
   <-> ClassLevel.name a = ClassLevel.name b
       \/ (In (ClassLevel.name a) ["grade1"; "grade2"]
           /\ In (ClassLevel.name b) ["grade1"; "grade2"])).
Proof.
  unfold class_code. cbn [map fst ClassLevel.MODEL_CHOICES In].
  intros Ha Hb.
  destruct Ha as [Ha|[Ha|[Ha|[Ha|[Ha|[]]]]]];
    destruct Hb as [Hb|[Hb|[Hb|[Hb|[Hb|[]]]]]];
    rewrite <- Ha, <- Hb; cbn; split; intros H;
    try discriminate; auto;
    try (destruct H as [H | [[H|[H|[]]] [H'|[H'|[]]]]]; discriminate).
Qed.

Lemma class_codes_of_enumeration_witness :
  class_code (ClassLevel.mk None "grade1" "" None None 0 0)
  = class_code (ClassLevel.mk None "grade2" "" None None 0 0)
  <-> "grade1" = "grade2"
      \/ (In "grade1" ["grade1"; "grade2"] /\ In "grade2" ["grade1"; "grade2"]).
Proof.
  apply (class_codes_of_enumeration
           (ClassLevel.mk None "grade1" "" None None 0 0)
           (ClassLevel.mk None "grade2" "" None None 0 0));
    cbn; auto 10.
Defined.

(** Learners of grade 1 and of grade 2 admitted in one year draw their
    numbers from one sequence. *)
Example grades_share_sequence :
  let enrol (name : string) (tbl : list Learner.t) :=
    snd (snd (Learner.save (datetime.mkdate 2025 1 6)
                (Learner.mk None
                   (Some (ClassLevel.mk (Some 4%nat) name "" None None 0 0))
                   "Amina" "Otieno" "" (Some (datetime.mkdate 2018 6 15))
                   "female" (Some (datetime.mkdate 2025 1 6)) "" true,
                 tbl))) in
  map Learner.student_id (enrol "grade2" (enrol "grade1" []))
  = ["25GRA001"; "25GRA002"].
Proof. reflexivity. Qed.

(** ** Learner: the admission term and the fees *)

Lemma datetime_le_spec (a b : datetime.date) :
  datetime.le a b = true <->
  datetime.year a < datetime.year b
  \/ (datetime.year a = datetime.year b
      /\ (datetime.month a < datetime.month b
          \/ (datetime.month a = datetime.month b
              /\ datetime.day a <= datetime.day b))).
Proof.
  unfold datetime.le. rewrite negb_true_iff, <- not_true_iff_false,
    datetime_lt_spec. lia.
Qed.

(** Property X13.  Of two terms that do not overlap at most one is the admission term
    of a learner, so the one-time fees are charged in one of them only. *)
Theorem one_admission_term (self : Learner.t) (t1 t2 : AcademicTerm.t)
        (e1 s2 : datetime.date) :
  AcademicTerm.end_date t1 = Some e1 ->
  AcademicTerm.start_date t2 = Some s2 ->
  datetime.lt e1 s2 = true ->
  Learner.is_admission_term self t1 = Ok true ->
  Learner.is_admission_term self t2 = Ok false.
Proof.
  intros He1 Hs2 Hlt. unfold Learner.is_admission_term.
  rewrite He1, Hs2.
  destruct (AcademicTerm.start_date t1) as [s1|]; [|discriminate].
  destruct (Learner.admission_date self) as [adm|]; [|discriminate].
  cbn. destruct (datetime.le s1 adm); [|discriminate].
  intros H. injection H as H.
  replace (datetime.le s2 adm) with false; [reflexivity|].
  symmetry. apply not_true_is_false. intros H2.
  apply datetime_le_spec in H, H2. apply datetime_lt_spec in Hlt. lia.
Qed.

Lemma one_admission_term_witness :
  Learner.is_admission_term
    (new_learner (Some (datetime.mkdate 2025 1 20)) "25PP1001") term2
  = Ok false.
Proof.
  apply (one_admission_term
           (new_learner (Some (datetime.mkdate 2025 1 20)) "25PP1001")
           term1 term2 (datetime.mkdate 2025 4 4) (datetime.mkdate 2025 5 5));
    reflexivity.
Defined.

(** Property X14.  A learner that has no admission date yet: where the fee row exists
    the comparison with the term raises [TypeError]; where it does not,
    the result is [None] all the same. *)
Theorem term_fees_without_admission_date
        (fees : list ClassTermFees.t) (self : Learner.t) (term : AcademicTerm.t)
        (cl : ClassLevel.t) (c a : nat) :
  unique_together fees ->
  Learner.class_level self = Some cl ->
  ClassLevel.pk cl = Some c ->
  AcademicTerm.pk term = Some a ->
  Learner.admission_date self = None ->
  ((exists row, In row fees /\ fee_key row = (c, a)) ->
   Learner.get_term_fees fees self term = Raise TypeError)
  /\ ((forall row, In row fees -> fee_key row <> (c, a)) ->
      Learner.get_term_fees fees self term = Ok None).
Proof.
  intros Hu Hcl Hc Ha Hadm.
  unfold Learner.get_term_fees, Learner.get_class_level, Learner.get_fees,
    objects_get.
  rewrite Hcl. cbn [rbind]. rewrite Hc, Ha. fold (fee_lookup c a). split.
  - intros (row & Hin & Hk).
    rewrite (filter_unique c a fees row Hu Hin Hk). cbn [rbind].
    unfold Learner.is_admission_term. rewrite Hadm.
    destruct (AcademicTerm.start_date term); reflexivity.
  - intros Hnone. now rewrite (filter_none c a fees Hnone).
Qed.

Lemma term_fees_without_admission_date_witness :
  ((exists row, In row sample_fees /\ fee_key row = (2%nat, 1%nat)) ->
   Learner.get_term_fees sample_fees (new_learner None "") term1
   = Raise TypeError)
  /\ ((forall row, In row sample_fees -> fee_key row <> (2%nat, 1%nat)) ->
      Learner.get_term_fees sample_fees (new_learner None "") term1 = Ok None).
Proof.
  apply (term_fees_without_admission_date sample_fees (new_learner None "")
           term1 pp1 2 1 sample_fees_unique); reflexivity.
Defined.

(** ** Learner: age *)

Lemma age_value (self : Learner.t) (birth as_of : datetime.date) :
  Learner.date_of_birth self = Some birth ->
  exists n,
    Learner._get_age_as_of_date self as_of = Ok n
    /\ ((datetime.month as_of < datetime.month birth
         \/ (datetime.month as_of = datetime.month birth
             /\ datetime.day as_of < datetime.day birth))
        /\ n = datetime.year as_of - datetime.year birth - 1
        \/ ~ (datetime.month as_of < datetime.month birth
              \/ (datetime.month as_of = datetime.month birth
                  /\ datetime.day as_of < datetime.day birth))
           /\ n = datetime.year as_of - datetime.year birth).
Proof.
  intros Hb. unfold Learner._get_age_as_of_date. rewrite Hb.
  destruct ((datetime.month as_of <? datetime.month birth)
            || (datetime.month as_of =? datetime.month birth)
               && (datetime.day as_of <? datetime.day birth)) eqn:E.
  - eexists. split; [reflexivity|]. left. split; [|reflexivity].
    rewrite orb_true_iff, andb_true_iff, !Z.ltb_lt, Z.eqb_eq in E. exact E.
  - eexists. split; [reflexivity|]. right. split; [|reflexivity].
    apply not_true_iff_false in E.
    rewrite orb_true_iff, andb_true_iff, !Z.ltb_lt, Z.eqb_eq in E. exact E.
Qed.

(** Property X15.  The age never decreases as the reference date advances, and it is
    not negative from the date of birth on. *)
Theorem age_monotone (self : Learner.t) (birth d1 d2 : datetime.date) :
  Learner.date_of_birth self = Some birth ->
  datetime.le d1 d2 = true ->
  exists n1 n2,
    Learner._get_age_as_of_date self d1 = Ok n1
    /\ Learner._get_age_as_of_date self d2 = Ok n2
    /\ n1 <= n2
    /\ (datetime.le birth d1 = true -> 0 <= n1).
Proof.
  intros Hb Hle.
  destruct (age_value self birth d1 Hb) as (n1 & E1 & C1).
  destruct (age_value self birth d2 Hb) as (n2 & E2 & C2).
  exists n1, n2. apply datetime_le_spec in Hle.
  repeat split; auto.
  - lia.
  - intros H. apply datetime_le_spec in H. lia.
Qed.

Lemma age_monotone_witness :
  exists n1 n2,
    Learner._get_age_as_of_date
      (learner_born (Some (datetime.mkdate 2020 6 15))) (datetime.mkdate 2025 6 14)
    = Ok n1
    /\ Learner._get_age_as_of_date
         (learner_born (Some (datetime.mkdate 2020 6 15))) (datetime.mkdate 2025 6 15)
       = Ok n2
    /\ n1 <= n2
    /\ (datetime.le (datetime.mkdate 2020 6 15) (datetime.mkdate 2025 6 14) = true
        -> 0 <= n1).
Proof.
  apply (age_monotone (learner_born (Some (datetime.mkdate 2020 6 15)))
           (datetime.mkdate 2020 6 15) (datetime.mkdate 2025 6 14)
           (datetime.mkdate 2025 6 15)); reflexivity.
Defined.

(** Property X16.  The age changes on the birthday: [k] years after the birth, it is
    [k] on the day of the year of the birth and on every later day of
    that year, and [k - 1] on every earlier day of that year. *)
Theorem age_turns_on_birthday (self : Learner.t) (birth d : datetime.date) (k : Z) :
  Learner.date_of_birth self = Some birth ->
  datetime.year d = datetime.year birth + k ->
  (datetime.lt d (datetime.mkdate (datetime.year d) (datetime.month birth)
                    (datetime.day birth)) = true ->
   Learner._get_age_as_of_date self d = Ok (k - 1))
  /\ (datetime.le (datetime.mkdate (datetime.year d) (datetime.month birth)
                     (datetime.day birth)) d = true ->
      Learner._get_age_as_of_date self d = Ok k).
Proof.
  intros Hb Hy.
  destruct (age_value self birth d Hb) as (n & E & C).
  rewrite E. split; intros H.
  - apply datetime_lt_spec in H. cbn in H. f_equal. lia.
  - apply datetime_le_spec in H. cbn in H. f_equal. lia.
Qed.

Lemma age_turns_on_birthday_witness :
  (datetime.lt (datetime.mkdate 2025 2 28) (datetime.mkdate 2025 2 29) = true ->
   Learner._get_age_as_of_date
     (learner_born (Some (datetime.mkdate 2020 2 29))) (datetime.mkdate 2025 2 28)
   = Ok (5 - 1))
  /\ (datetime.le (datetime.mkdate 2025 2 29) (datetime.mkdate 2025 2 28) = true ->
      Learner._get_age_as_of_date
        (learner_born (Some (datetime.mkdate 2020 2 29))) (datetime.mkdate 2025 2 28)
      = Ok 5).
Proof.
  apply (age_turns_on_birthday (learner_born (Some (datetime.mkdate 2020 2 29)))
           (datetime.mkdate 2020 2 29) (datetime.mkdate 2025 2 28) 5);
    reflexivity.
Defined.

(** A learner born on 29 February turns a year older on 1 March in the
    years that have no 29 February. *)
Example leap_day_birthday :
  let self := learner_born (Some (datetime.mkdate 2020 2 29)) in
  Learner._get_age_as_of_date self (datetime.mkdate 2025 2 28) = Ok 4
  /\ Learner._get_age_as_of_date self (datetime.mkdate 2025 3 1) = Ok 5
  /\ Learner._get_age_as_of_date self (datetime.mkdate 2024 2 28) = Ok 3
  /\ Learner._get_age_as_of_date self (datetime.mkdate 2024 2 29) = Ok 4.
Proof. repeat split. Qed.

(** *** Age criteria of the class *)

Lemma new_june_first (y : Z) :
  1 <= y <= 9999 -> datetime.new y 6 1 = Ok (datetime.mkdate y 6 1).
Proof.
  intros H. unfold datetime.new, datetime.valid, datetime._days_in_month.
  cbn [datetime.year datetime.month datetime.day].
  unfold datetime.MINYEAR, datetime.MAXYEAR.
  replace (1 <=? y) with true by (symmetry; apply Z.leb_le; lia).
  replace (y <=? 9999) with true by (symmetry; apply Z.leb_le; lia).
  reflexivity.
Qed.

(** Property X17.  The minimum age amounts to a latest date of birth: with a minimum
    of [c] years, a learner meets it in the year of [today] exactly when
    born on or before 1 June, [c] years back. *)
Theorem age_criteria_cutoff (today birth : datetime.date) (self : Learner.t)
        (cl : ClassLevel.t) (c : Z) :
  datetime.valid today = true ->
  Learner.class_level self = Some cl ->
  ClassLevel.age_criteria cl = Some c ->
  c <> 0 ->
  Learner.date_of_birth self = Some birth ->
  Learner.meets_age_criteria_for_class today self
  = Ok (datetime.le birth (datetime.mkdate (datetime.year today - c) 6 1)).
Proof.
  intros Vt Hcl Hc Hc0 Hb.
  unfold Learner.meets_age_criteria_for_class, Learner.get_class_level,
    Learner.age_by_june_first.
  rewrite Hcl. cbn [rbind]. rewrite Hc. cbn [Learner.truthy_int].
  replace (c =? 0) with false by (symmetry; now apply Z.eqb_neq).
  cbn [negb].
  assert (Hy : 1 <= datetime.year today <= 9999).
  { unfold datetime.valid, datetime.MINYEAR, datetime.MAXYEAR in Vt.
    rewrite !andb_true_iff, !Z.leb_le in Vt. lia. }
  rewrite (new_june_first _ Hy). cbn [rbind].
  destruct (age_value self birth (datetime.mkdate (datetime.year today) 6 1) Hb)
    as (n & E & C).
  rewrite E. cbn [rbind]. f_equal. cbn in C.
  rewrite Z.geb_leb.
  destruct (datetime.le birth (datetime.mkdate (datetime.year today - c) 6 1))
    eqn:L.
  - apply datetime_le_spec in L. cbn in L. apply Z.leb_le. lia.
  - apply not_true_iff_false in L. rewrite datetime_le_spec in L. cbn in L.
    apply Z.leb_gt. lia.
Qed.

Lemma age_criteria_cutoff_witness :
  Learner.meets_age_criteria_for_class (datetime.mkdate 2025 1 6)
    (new_learner (Some (datetime.mkdate 2025 1 6)) "25PP1001")
  = Ok (datetime.le (datetime.mkdate 2020 6 15)
          (datetime.mkdate (2025 - 4) 6 1)).
Proof.
  apply (age_criteria_cutoff (datetime.mkdate 2025 1 6) (datetime.mkdate 2020 6 15)
           (new_learner (Some (datetime.mkdate 2025 1 6)) "25PP1001") pp1 4);
    try reflexivity.
  discriminate.
Defined.

(** Without a minimum age, or with a minimum of zero, every learner of
    the class meets the criteria, also one without date of birth. *)
Theorem no_age_criteria (today : datetime.date) (self : Learner.t)
        (cl : ClassLevel.t) :
  Learner.class_level self = Some cl ->
  ClassLevel.age_criteria cl = None \/ ClassLevel.age_criteria cl = Some 0 ->
  Learner.meets_age_criteria_for_class today self = Ok true.
Proof.
  intros Hcl H.
  unfold Learner.meets_age_criteria_for_class, Learner.get_class_level.
  rewrite Hcl. cbn [rbind]. destruct H as [-> | ->]; reflexivity.
Qed.

(** ** Tables in good order *)

Section ModelSaveUnique.

Context {A : Type}.
Variable get_pk : A -> option nat.
Variable set_pk : option nat -> A -> A.
Variable conflicts : A -> A -> bool.
Variable pre_insert : A -> A.
Hypothesis get_set_pk : forall k x, get_pk (set_pk k x) = k.
Hypothesis get_pk_pre_insert : forall x, get_pk (pre_insert x) = get_pk x.
Hypothesis conflicts_set_pk_l :
  forall k x y, conflicts (set_pk k x) y = conflicts x y.
Hypothesis conflicts_sym : forall x y, conflicts x y = conflicts y x.

Lemma existsb_false_forall (f : A -> bool) (t : list A) :
  existsb f t = false -> Forall (fun r => f r = false) t.
Proof.
  induction t as [|r t IH]; cbn; [constructor|].
  intros H. apply orb_false_iff in H as [Hr Ht]. constructor; auto.
Qed.

Lemma conflict_free_snoc (t : list A) (row : A) :
  conflict_free conflicts t -> Forall (fun r => conflicts r row = false) t ->
  conflict_free conflicts (t ++ [row]).
Proof.
  unfold conflict_free. intros Hf Hr.
  induction Hf as [|a t Ha Hf IH]; cbn.
  - repeat constructor.
  - inversion Hr as [|? ? Har Hr']; subst.
    constructor; [|auto].
    apply Forall_app. split; [exact Ha | now constructor].
Qed.

Lemma not_in_pks (k : nat) (t : list A) :
  existsb (has_pk get_pk k) t = false -> ~ In (Some k) (map get_pk t).
Proof.
  intros H Hin. apply in_map_iff in Hin as (r & Hr & Hin).
  apply existsb_false_forall in H. rewrite Forall_forall in H.
  specialize (H r Hin). unfold has_pk in H. rewrite Hr, Nat.eqb_refl in H.
  discriminate.
Qed.

Lemma fresh_not_in_pks (t : list A) :
  ~ In (Some (fresh_pk get_pk t)) (map get_pk t).
Proof.
  intros Hin. apply in_map_iff in Hin as (r & Hr & Hin).
  pose proof (fresh_pk_above get_pk t r _ Hin Hr). lia.
Qed.

Lemma keyed_snoc (t : list A) (row : A) (k : nat) :
  keyed get_pk t -> get_pk row = Some k -> ~ In (Some k) (map get_pk t) ->
  keyed get_pk (t ++ [row]).
Proof.
  intros [Hnd Hall] Hk Hn. split.
  - rewrite map_app. cbn. rewrite Hk.
    apply NoDup_app; [exact Hnd | repeat constructor; intros [] |].
    intros a Ha [<- | []]. contradiction.
  - apply Forall_app. split; [exact Hall|].
    constructor; [|constructor]. congruence.
Qed.

Lemma replace_row_pks (k : nat) (obj : A) (t : list A) :
  get_pk obj = Some k ->
  map get_pk (replace_row get_pk k obj t) = map get_pk t.
Proof.
  intros Hk. induction t as [|r t IH]; cbn; [reflexivity|].
  destruct (has_pk get_pk k r) eqn:E; cbn; rewrite IH; [|reflexivity].
  f_equal. rewrite Hk. unfold has_pk in E.
  destruct (get_pk r) as [k'|]; [|discriminate].
  apply Nat.eqb_eq in E. now subst.
Qed.

Lemma replace_row_conflict_free (k : nat) (obj : A) (t : list A) :
  NoDup (map get_pk t) ->
  conflict_free conflicts t ->
  existsb (conflicts obj) (others get_pk k t) = false ->
  conflict_free conflicts (replace_row get_pk k obj t).
Proof.
  unfold conflict_free. intros Hnd Hf.
  induction Hf as [|r t Hr Hf IH]; cbn; intros Hc; [constructor|].
  cbn in Hnd. inversion Hnd as [|? ? Hnotin Hnd']; subst.
  unfold others in Hc. cbn in Hc.
  destruct (has_pk get_pk k r) eqn:E; cbn in Hc.
  - (* the row that is replaced: no other row has its key *)
    assert (Hk : get_pk r = Some k).
    { unfold has_pk in E. destruct (get_pk r) as [k'|]; [|discriminate].
      apply Nat.eqb_eq in E. now subst. }
    assert (Hun : forallb (fun x => negb (has_pk get_pk k x)) t = true).
    { apply forallb_forall. intros x Hx.
      destruct (has_pk get_pk k x) eqn:Ex; [|reflexivity].
      exfalso. apply Hnotin. rewrite Hk.
      unfold has_pk in Ex. destruct (get_pk x) as [k'|] eqn:Gx; [|discriminate].
      apply Nat.eqb_eq in Ex. subst k'. rewrite <- Gx. now apply in_map. }
    destruct (others_unused get_pk k t Hun) as [Ho Hrep].
    rewrite Hrep. fold (others get_pk k t) in Hc. rewrite Ho in Hc.
    constructor; [|exact Hf].
    now apply existsb_false_forall.
  - apply orb_false_iff in Hc as [Hcr Hc].
    constructor; [|now apply IH].
    clear IH Hf Hc Hnd Hnd' Hnotin.
    induction Hr as [|x t Hx Hr IHr]; cbn; [constructor|].
    destruct (has_pk get_pk k x); constructor; auto.
    now rewrite conflicts_sym.
Qed.

(** The write keeps a table in good order, whatever its outcome. *)
Lemma model_save_keeps_order (self : A) (t : list A) :
  keyed get_pk t -> conflict_free conflicts t ->
  keyed get_pk (snd (snd (model_save get_pk set_pk conflicts pre_insert (self, t))))
  /\ conflict_free conflicts
       (snd (snd (model_save get_pk set_pk conflicts pre_insert (self, t)))).
Proof.
  intros Hk Hf. unfold model_save, update_row, insert_row.
  assert (Hins :
    forall k, get_pk (set_pk (Some k) (pre_insert self)) = Some k ->
      ~ In (Some k) (map get_pk t) ->
      existsb (conflicts (pre_insert self)) t = false ->
      keyed get_pk (t ++ [set_pk (Some k) (pre_insert self)])
      /\ conflict_free conflicts (t ++ [set_pk (Some k) (pre_insert self)])).
  { intros k Hget Hn Hc. split.
    - now apply (keyed_snoc t _ k).
    - apply conflict_free_snoc; [exact Hf|].
      apply existsb_false_forall in Hc.
      eapply Forall_impl; [|exact Hc]. cbn. intros r Hr.
      now rewrite conflicts_sym, conflicts_set_pk_l. }
  destruct (get_pk self) as [k|] eqn:Hpk.
  - destruct (existsb (has_pk get_pk k) t) eqn:E.
    + destruct (existsb (conflicts self) (others get_pk k t)) eqn:C; cbn;
        [auto|]. destruct Hk as [Hnd Hall]. split.
      * split.
        -- now rewrite replace_row_pks.
        -- clear -Hall Hpk. induction Hall as [|r t Hr Hall IH]; cbn;
             [constructor|].
           destruct (has_pk get_pk k r); constructor; auto. congruence.
      * now apply replace_row_conflict_free.
    + rewrite get_pk_pre_insert, Hpk.
      destruct (existsb (conflicts (pre_insert self)) t) eqn:C; cbn; [auto|].
      apply Hins; auto. now apply not_in_pks.
  - rewrite get_pk_pre_insert, Hpk.
    destruct (existsb (conflicts (pre_insert self)) t) eqn:C; cbn; [auto|].
    apply Hins; auto. apply fresh_not_in_pks.
Qed.

End ModelSaveUnique.

Section ConflictByKey.

Context {A K : Type}.
Variable key : A -> K.
Variable keq : K -> K -> bool.
Hypothesis keq_spec : forall x y, keq x y = true <-> x = y.

(** Where two rows conflict exactly when they agree on a key, a table
    is free of conflicts exactly when the keys of its rows differ. *)
Lemma conflict_free_nodup (t : list A) :
  conflict_free (fun a b => keq (key a) (key b)) t <-> NoDup (map key t).
Proof.
  unfold conflict_free. induction t as [|r t IH]; cbn.
  - split; constructor.
  - split; intros H.
    + inversion H as [|? ? Hr Ht]; subst. constructor; [|now apply IH].
      intros Hin. apply in_map_iff in Hin as (x & Hx & Hin).
      rewrite Forall_forall in Hr. specialize (Hr x Hin).
      apply not_true_iff_false in Hr. apply Hr. apply keq_spec. congruence.
    + inversion H as [|? ? Hn Hnd]; subst. constructor; [|now apply IH].
      apply Forall_forall. intros x Hin.
      apply not_true_iff_false. intros E. apply keq_spec in E.
      apply Hn. rewrite E. now apply in_map.
Qed.

End ConflictByKey.

Lemma fee_key_eqb_spec (x y : nat * nat) :
  Nat.eqb (fst x) (fst y) && Nat.eqb (snd x) (snd y) = true <-> x = y.
Proof.
  destruct x as [a b], y as [c d]. cbn.
  rewrite andb_true_iff, !Nat.eqb_eq. split.
  - intros [-> ->]. reflexivity.
  - intros H. injection H as -> ->. auto.
Qed.

(** Property X18.  Saving a fee row keeps the table in good order: the primary keys
    stay distinct and there is never a second row for one class level
    and term, whether the save succeeds or is refused. *)
Theorem fees_stay_unique (self : ClassTermFees.t) (tbl : list ClassTermFees.t) :
  keyed ClassTermFees.pk tbl ->
  unique_together tbl ->
  keyed ClassTermFees.pk (snd (snd (ClassTermFees.save (self, tbl))))
  /\ unique_together (snd (snd (ClassTermFees.save (self, tbl)))).
Proof.
  intros Hk Hu.
  assert (Hc : forall t,
             conflict_free ClassTermFees.conflicts t <-> unique_together t).
  { intros t. unfold unique_together.
    apply (conflict_free_nodup fee_key
             (fun x y => Nat.eqb (fst x) (fst y) && Nat.eqb (snd x) (snd y))
             fee_key_eqb_spec). }
  rewrite <- Hc in *. unfold ClassTermFees.save.
  apply model_save_keeps_order; auto.
  intros x y. unfold ClassTermFees.conflicts.
  now rewrite (Nat.eqb_sym (ClassTermFees.class_level_id x)),
    (Nat.eqb_sym (ClassTermFees.academic_term_id x)).
Qed.

Lemma fees_stay_unique_witness :
  keyed ClassTermFees.pk
    (snd (snd (ClassTermFees.save
                 (ClassTermFees.mk None 1 2 1200000 300000 0, sample_fees))))
  /\ unique_together
       (snd (snd (ClassTermFees.save
                    (ClassTermFees.mk None 1 2 1200000 300000 0, sample_fees)))).
Proof.
  apply (fees_stay_unique (ClassTermFees.mk None 1 2 1200000 300000 0)
           sample_fees).
  - split; [|repeat constructor; discriminate].
    cbn. repeat constructor; cbn; intuition congruence.
  - exact sample_fees_unique.
Defined.

(** Property X19.  Saving a learner keeps the table in good order: the primary keys
    and the student identifiers of the rows stay distinct, whether the
    save succeeds or raises. *)
Theorem student_ids_stay_unique (today : datetime.date) (self : Learner.t)
        (tbl : list Learner.t) :
  keyed Learner.pk tbl ->
  NoDup (map Learner.student_id tbl) ->
  keyed Learner.pk (snd (snd (Learner.save today (self, tbl))))
  /\ NoDup (map Learner.student_id (snd (snd (Learner.save today (self, tbl))))).
Proof.
  intros Hk Hu.
  assert (Hc : forall t,
             conflict_free Learner.conflicts t
             <-> NoDup (map Learner.student_id t)).
  { intros t.
    apply (conflict_free_nodup Learner.student_id String.eqb String.eqb_eq). }
  rewrite <- Hc in *.
  assert (Hw : forall x,
             keyed Learner.pk (snd (snd (Learner_write today (x, tbl))))
             /\ conflict_free Learner.conflicts
                  (snd (snd (Learner_write today (x, tbl))))).
  { intros x. unfold Learner_write.
    apply model_save_keeps_order; auto.
    intros a b. unfold Learner.conflicts. apply String.eqb_sym. }
  destruct (Learner_save_cases today self tbl)
    as [[N E] | [B [[_ E] | [(d & _ & _ & E) | (d & cl & _ & _ & E)]]]];
    rewrite E; auto.
Qed.

Lemma student_ids_stay_unique_witness :
  let tbl := [Learner.set_pk (Some 1%nat)
                (new_learner (Some (datetime.mkdate 2025 1 6)) "25PP1001")] in
  let out := Learner.save (datetime.mkdate 2025 2 3)
               (new_learner (Some (datetime.mkdate 2025 2 3)) "", tbl) in
  keyed Learner.pk (snd (snd out))
  /\ NoDup (map Learner.student_id (snd (snd out))).
Proof.
  apply (student_ids_stay_unique (datetime.mkdate 2025 2 3)
           (new_learner (Some (datetime.mkdate 2025 2 3)) "")
           [Learner.set_pk (Some 1%nat)
              (new_learner (Some (datetime.mkdate 2025 1 6)) "25PP1001")]).
  - split; repeat constructor; cbn; intuition discriminate.
  - repeat constructor. cbn. intuition.
Defined.

(** ** ClassLevel: saving twice; Learner: length of the identifier *)

Lemma set_class_order_same (v : Z) (self : ClassLevel.t) :
  ClassLevel.class_order self = Some v ->
  ClassLevel.set_class_order v self = self.
Proof. destruct self; cbn; intros ->; reflexivity. Qed.

(** Property X20.  A new class level that was saved can be saved again: the order is
    computed anew to the same value, and neither the object nor the
    table changes. *)
Theorem class_level_save_again
        (self self' : ClassLevel.t) (tbl tbl' : list ClassLevel.t) :
  ClassLevel.pk self = None ->
  ClassLevel.save (self, tbl) = (Ok tt, (self', tbl')) ->
  ClassLevel.save (self', tbl') = (Ok tt, (self', tbl')).
Proof.
  intros Hpk S.
  destruct (ClassLevel_save_unfold self tbl) as [v [Hv E]].
  rewrite E in S.
  assert (Hname : ClassLevel.name self' = ClassLevel.name self).
  { pose proof (model_save_self ClassLevel.pk ClassLevel.set_pk
                  ClassLevel.conflicts (fun row => row)
                  (fun x => ClassLevel.name x = ClassLevel.name self)
                  (ClassLevel.set_class_order v self) tbl) as H.
    rewrite S in H. apply H; auto. }
  assert (Hord : ClassLevel.class_order self' = Some v).
  { pose proof (model_save_self ClassLevel.pk ClassLevel.set_pk
                  ClassLevel.conflicts (fun row => row)
                  (fun x => ClassLevel.class_order x = Some v)
                  (ClassLevel.set_class_order v self) tbl) as H.
    rewrite S in H. apply H; auto. }
  destruct (ClassLevel_save_unfold self' tbl') as [v' [Hv' E']].
  rewrite E'. rewrite Hname in Hv'.
  assert (v' = v).
  { destruct (Py.index (ClassLevel.name self)
                (map fst ClassLevel.MODEL_CHOICES)); congruence. }
  subst v'. rewrite (set_class_order_same v self' Hord).
  eapply (model_save_again ClassLevel.pk ClassLevel.set_pk ClassLevel.conflicts
            (fun row => row) (fun row => row));
    try exact S; auto.
Qed.

Lemma class_level_save_again_witness :
  let row := ClassLevel.mk (Some 1%nat) "pp2" "" (Some 3) None 0 0 in
  ClassLevel.save (row, [row]) = (Ok tt, (row, [row])).
Proof.
  apply (class_level_save_again (ClassLevel.mk None "pp2" "" None None 0 0)
           _ [] _); reflexivity.
Defined.

(** *** Length of a generated identifier *)







Example thousandth_sequence_number :
  Py.format_03d 999 = "999" /\ Py.format_03d 1000 = "1000"
  /\ Py.format_03d 7 = "007".
Proof. repeat split. Qed.
